(** * The Device class of the Cloud Print Logo Certification tool

    A shallow embedding of [_device.py]: the [Device] object, its Privet
    registration methods, the status refresh and the CDD parser, together
    with the properties the specification states about them.

    The collaborators of the class ([Transport], [JsonParser], [Privet],
    [CloudPrintMgr], [Constants]) and the Python built-ins [json.loads] and
    [str] live outside [_device.py]; they are the fields of the record
    [Env] and every general theorem holds for all of them.  Calls to the
    logger change nothing the methods can observe and are left out.  The
    chromedriver behind [GetDeviceCDD] and the helper [Extract] behind
    [GetPrinterInfo] are parameters of those two methods. *)

From Stdlib Require Import String Ascii List ZArith Bool Lia DecimalString.
Import ListNotations.
Local Open Scope list_scope.
Local Open Scope string_scope.

(** ** Python values *)

(** The values the methods handle: [None], booleans, integers, strings,
    lists and dictionaries.  A dictionary is the list of its items; a
    lookup takes the first item with the key, and [for k in d] visits the
    keys in the order of the list.  The order in which Python visits a
    dictionary is not fixed by the source; the general theorems hold for
    every dictionary and so for every order. *)
#[warnings="-register-all"]
Inductive pyval : Type :=
| PNone
| PBool (b : bool)
| PInt (z : Z)
| PStr (s : string)
| PList (l : list pyval)
| PDict (d : list (pyval * pyval)).

(** The exceptions the methods can let escape. *)
Inductive exn : Type :=
| AttributeError (attr : string)
| KeyError (key : pyval)
| IndexError
| TypeError
| ValueError.

(** A call either returns a value or raises. *)
Inductive outcome (A : Type) : Type :=
| Ok (a : A)
| Raise (e : exn).
Arguments Ok {A} a.
Arguments Raise {A} e.

Module Py.

(** Truth value of an object, as tested by [if x:] and [not x]. *)
Definition truthy (v : pyval) : bool :=
  match v with
  | PNone => false
  | PBool b => b
  | PInt z => negb (Z.eqb z 0)
  | PStr s => negb (String.eqb s "")
  | PList l => match l with [] => false | _ => true end
  | PDict d => match d with [] => false | _ => true end
  end.

(** [needle in hay] on strings. *)
Fixpoint str_contains (needle hay : string) : bool :=
  String.prefix needle hay ||
  match hay with
  | EmptyString => false
  | String _ rest => str_contains needle rest
  end.

(** Lists and dictionaries cannot be dictionary keys. *)
Definition hashable (v : pyval) : bool :=
  match v with
  | PList _ | PDict _ => false
  | _ => true
  end.

(** Integer view of a value usable as a sequence index ([bool] is a
    subclass of [int]). *)
Definition as_index (v : pyval) : option Z :=
  match v with
  | PInt z => Some z
  | PBool true => Some 1%Z
  | PBool false => Some 0%Z
  | _ => None
  end.

(** Equality of two hashable values, as a dictionary compares keys. *)
Definition key_eqb (a b : pyval) : bool :=
  match a, b with
  | PNone, PNone => true
  | PStr s, PStr t => String.eqb s t
  | _, _ =>
      match as_index a, as_index b with
      | Some x, Some y => Z.eqb x y
      | _, _ => false
      end
  end.

Fixpoint dict_get (d : list (pyval * pyval)) (k : pyval) : option pyval :=
  match d with
  | [] => None
  | (k', v) :: rest => if key_eqb k' k then Some v else dict_get rest k
  end.

(** [d[k] = x]: an existing key keeps its place, a new key goes last. *)
Fixpoint dict_set (d : list (pyval * pyval)) (k x : pyval)
  : list (pyval * pyval) :=
  match d with
  | [] => [(k, x)]
  | (k', v) :: rest =>
      if key_eqb k' k then (k', x) :: rest else (k', v) :: dict_set rest k x
  end.

(** Position of index [z] in a sequence of length [n]; negative indices
    count from the end. *)
Definition norm_index (n : nat) (z : Z) : option nat :=
  if ((0 <=? z) && (z <? Z.of_nat n))%Z then Some (Z.to_nat z)
  else if ((z <? 0) && (- Z.of_nat n <=? z))%Z
       then Some (Z.to_nat (Z.of_nat n + z))
       else None.

Definition chars (s : string) : list pyval :=
  map (fun c => PStr (String c EmptyString)) (list_ascii_of_string s).

(** [v[k]]. *)
Definition getitem (v k : pyval) : outcome pyval :=
  match v with
  | PDict d =>
      if hashable k then
        match dict_get d k with
        | Some x => Ok x
        | None => Raise (KeyError k)
        end
      else Raise TypeError
  | PList l =>
      match as_index k with
      | Some z =>
          match norm_index (length l) z with
          | Some i => match nth_error l i with
                      | Some x => Ok x
                      | None => Raise IndexError
                      end
          | None => Raise IndexError
          end
      | None => Raise TypeError
      end
  | PStr s =>
      match as_index k with
      | Some z =>
          match norm_index (String.length s) z with
          | Some i => match nth_error (chars s) i with
                      | Some x => Ok x
                      | None => Raise IndexError
                      end
          | None => Raise IndexError
          end
      | None => Raise TypeError
      end
  | _ => Raise TypeError
  end.

Fixpoint list_set (l : list pyval) (i : nat) (x : pyval) : list pyval :=
  match l, i with
  | [], _ => []
  | _ :: rest, O => x :: rest
  | y :: rest, S j => y :: list_set rest j x
  end.

(** [v[k] = x], giving the updated container. *)
Definition setitem (v k x : pyval) : outcome pyval :=
  match v with
  | PDict d =>
      if hashable k then Ok (PDict (dict_set d k x)) else Raise TypeError
  | PList l =>
      match as_index k with
      | Some z =>
          match norm_index (length l) z with
          | Some i => Ok (PList (list_set l i x))
          | None => Raise IndexError
          end
      | None => Raise TypeError
      end
  | _ => Raise TypeError
  end.

(** ['needle' in v] for a string constant [needle]: key membership in a
    dictionary, element membership in a list, substring test on a
    string. *)
Definition contains_str (needle : string) (v : pyval) : outcome bool :=
  match v with
  | PDict d =>
      Ok (match dict_get d (PStr needle) with Some _ => true | None => false end)
  | PList l => Ok (existsb (key_eqb (PStr needle)) l)
  | PStr s => Ok (str_contains needle s)
  | _ => Raise TypeError
  end.

(** The items [for k in v] visits: the keys of a dictionary, the
    elements of a list, the characters of a string. *)
Definition iter (v : pyval) : outcome (list pyval) :=
  match v with
  | PDict d => Ok (map fst d)
  | PList l => Ok l
  | PStr s => Ok (chars s)
  | _ => Raise TypeError
  end.

(** [range(lo, hi)]. *)
Definition range (lo hi : Z) : list Z :=
  map (fun i => (lo + Z.of_nat i)%Z) (seq 0 (Z.to_nat (hi - lo))).

End Py.

(** ** The collaborators *)

(** The URL table built by [Privet.SetPrivetUrls]: [privet_url['info']]
    and the four entries of [privet_url['register']]. *)
Record PrivetUrls : Type := {
  url_info : pyval;
  url_start : pyval;
  url_getClaimToken : pyval;
  url_complete : pyval;
  url_cancel : pyval
}.

(** The arguments of one [Transport.HTTPReq] call; [None] stands for a
    keyword argument that is not passed. *)
Record Request : Type := {
  req_url : pyval;
  req_data : option pyval;
  req_headers : option pyval;
  req_user : option pyval;
  req_auth_token : option pyval
}.

(** The dictionary [HTTPReq] returns: [response['code']],
    [response['headers']] and the body [response['data']]. *)
Record Response : Type := {
  resp_code : pyval;
  resp_headers : pyval;
  resp_data : string
}.

(** The five readers of [CloudPrintMgr] used by [GetDeviceDetails]. *)
Inductive Getter : Type :=
| GetPrinterErrorState
| GetPrinterWarningState
| GetPrinterState
| GetPrinterStateMessages
| GetPrinterDetails.

(** One interaction with the outside: a request sent through the
    transport or a reader of the management page called. *)
Inductive Call : Type :=
| HTTP (r : Request)
| Console (g : Getter) (printer : pyval).

(** Everything [_device.py] imports.  The transport and the management
    page answer as a function of all calls made so far, so an [Env]
    covers every sequence of answers. *)
Record Env : Type := {
  PRINTER_MODEL : pyval;
  PRINTER_IP : pyval;
  PRINTER_PORT : pyval;
  PRINTER_NAME : pyval;
  USER_EMAIL : pyval;
  AUTH_URL_GCP : pyval;
  headers_empty : pyval;
  SetPrivetUrls : pyval -> pyval -> PrivetUrls;
  HTTPReq : list Call -> Request -> Response;
  LogData : Response -> bool;
  Read : string -> list (pyval * pyval);
  GetValue : string -> string -> pyval;
  Validate : string -> pyval;
  console : list Call -> Getter -> pyval -> pyval;
  json_loads : string -> option pyval;
  str_of : pyval -> string
}.

(** ** The device object *)

(** The attributes of a [Device].  The four attributes that [__init__]
    does not assign are optional: [None] means the object has no such
    attribute yet, and reading it raises [AttributeError].  Of the
    chromedriver [self.cd] only the attribute [page_id] is written by
    the methods below; [self.url] is only logged and the collaborator
    objects are in [Env]. *)
Record Device : Type := {
  model : pyval;
  ipv4 : pyval;
  port : pyval;
  name : pyval;
  status : pyval;
  messages : pyval;
  details : pyval;
  error_state : pyval;
  warning_state : pyval;
  cdd : pyval;
  info : pyval;
  headers : pyval;
  privet_url : PrivetUrls;
  privet_info : pyval;
  cd_page_id : pyval;
  claim_token : option pyval;
  automated_claim_url : option pyval;
  claim_url : option pyval;
  id : option pyval
}.

Definition set_status (v : pyval) (d : Device) : Device :=
  {| model := model d;
     ipv4 := ipv4 d;
     port := port d;
     name := name d;
     status := v;
     messages := messages d;
     details := details d;
     error_state := error_state d;
     warning_state := warning_state d;
     cdd := cdd d;
     info := info d;
     headers := headers d;
     privet_url := privet_url d;
     privet_info := privet_info d;
     cd_page_id := cd_page_id d;
     claim_token := claim_token d;
     automated_claim_url := automated_claim_url d;
     claim_url := claim_url d;
     id := id d |}.

Definition set_messages (v : pyval) (d : Device) : Device :=
  {| model := model d;
     ipv4 := ipv4 d;
     port := port d;
     name := name d;
     status := status d;
     messages := v;
     details := details d;
     error_state := error_state d;
     warning_state := warning_state d;
     cdd := cdd d;
     info := info d;
     headers := headers d;
     privet_url := privet_url d;
     privet_info := privet_info d;
     cd_page_id := cd_page_id d;
     claim_token := claim_token d;
     automated_claim_url := automated_claim_url d;
     claim_url := claim_url d;
     id := id d |}.

Definition set_details (v : pyval) (d : Device) : Device :=
  {| model := model d;
     ipv4 := ipv4 d;
     port := port d;
     name := name d;
     status := status d;
     messages := messages d;
     details := v;
     error_state := error_state d;
     warning_state := warning_state d;
     cdd := cdd d;
     info := info d;
     headers := headers d;
     privet_url := privet_url d;
     privet_info := privet_info d;
     cd_page_id := cd_page_id d;
     claim_token := claim_token d;
     automated_claim_url := automated_claim_url d;
     claim_url := claim_url d;
     id := id d |}.

Definition set_error_state (v : pyval) (d : Device) : Device :=
  {| model := model d;
     ipv4 := ipv4 d;
     port := port d;
     name := name d;
     status := status d;
     messages := messages d;
     details := details d;
     error_state := v;
     warning_state := warning_state d;
     cdd := cdd d;
     info := info d;
     headers := headers d;
     privet_url := privet_url d;
     privet_info := privet_info d;
     cd_page_id := cd_page_id d;
     claim_token := claim_token d;
     automated_claim_url := automated_claim_url d;
     claim_url := claim_url d;
     id := id d |}.

Definition set_warning_state (v : pyval) (d : Device) : Device :=
  {| model := model d;
     ipv4 := ipv4 d;
     port := port d;
     name := name d;
     status := status d;
     messages := messages d;
     details := details d;
     error_state := error_state d;
     warning_state := v;
     cdd := cdd d;
     info := info d;
     headers := headers d;
     privet_url := privet_url d;
     privet_info := privet_info d;
     cd_page_id := cd_page_id d;
     claim_token := claim_token d;
     automated_claim_url := automated_claim_url d;
     claim_url := claim_url d;
     id := id d |}.

Definition set_cdd (v : pyval) (d : Device) : Device :=
  {| model := model d;
     ipv4 := ipv4 d;
     port := port d;
     name := name d;
     status := status d;
     messages := messages d;
     details := details d;
     error_state := error_state d;
     warning_state := warning_state d;
     cdd := v;
     info := info d;
     headers := headers d;
     privet_url := privet_url d;
     privet_info := privet_info d;
     cd_page_id := cd_page_id d;
     claim_token := claim_token d;
     automated_claim_url := automated_claim_url d;
     claim_url := claim_url d;
     id := id d |}.

Definition set_info (v : pyval) (d : Device) : Device :=
  {| model := model d;
     ipv4 := ipv4 d;
     port := port d;
     name := name d;
     status := status d;
     messages := messages d;
     details := details d;
     error_state := error_state d;
     warning_state := warning_state d;
     cdd := cdd d;
     info := v;
     headers := headers d;
     privet_url := privet_url d;
     privet_info := privet_info d;
     cd_page_id := cd_page_id d;
     claim_token := claim_token d;
     automated_claim_url := automated_claim_url d;
     claim_url := claim_url d;
     id := id d |}.

Definition set_headers (v : pyval) (d : Device) : Device :=
  {| model := model d;
     ipv4 := ipv4 d;
     port := port d;
     name := name d;
     status := status d;
     messages := messages d;
     details := details d;
     error_state := error_state d;
     warning_state := warning_state d;
     cdd := cdd d;
     info := info d;
     headers := v;
     privet_url := privet_url d;
     privet_info := privet_info d;
     cd_page_id := cd_page_id d;
     claim_token := claim_token d;
     automated_claim_url := automated_claim_url d;
     claim_url := claim_url d;
     id := id d |}.

Definition set_privet_info (v : pyval) (d : Device) : Device :=
  {| model := model d;
     ipv4 := ipv4 d;
     port := port d;
     name := name d;
     status := status d;
     messages := messages d;
     details := details d;
     error_state := error_state d;
     warning_state := warning_state d;
     cdd := cdd d;
     info := info d;
     headers := headers d;
     privet_url := privet_url d;
     privet_info := v;
     cd_page_id := cd_page_id d;
     claim_token := claim_token d;
     automated_claim_url := automated_claim_url d;
     claim_url := claim_url d;
     id := id d |}.

Definition set_cd_page_id (v : pyval) (d : Device) : Device :=
  {| model := model d;
     ipv4 := ipv4 d;
     port := port d;
     name := name d;
     status := status d;
     messages := messages d;
     details := details d;
     error_state := error_state d;
     warning_state := warning_state d;
     cdd := cdd d;
     info := info d;
     headers := headers d;
     privet_url := privet_url d;
     privet_info := privet_info d;
     cd_page_id := v;
     claim_token := claim_token d;
     automated_claim_url := automated_claim_url d;
     claim_url := claim_url d;
     id := id d |}.

Definition set_claim_token (v : option pyval) (d : Device) : Device :=
  {| model := model d;
     ipv4 := ipv4 d;
     port := port d;
     name := name d;
     status := status d;
     messages := messages d;
     details := details d;
     error_state := error_state d;
     warning_state := warning_state d;
     cdd := cdd d;
     info := info d;
     headers := headers d;
     privet_url := privet_url d;
     privet_info := privet_info d;
     cd_page_id := cd_page_id d;
     claim_token := v;
     automated_claim_url := automated_claim_url d;
     claim_url := claim_url d;
     id := id d |}.

Definition set_automated_claim_url (v : option pyval) (d : Device) : Device :=
  {| model := model d;
     ipv4 := ipv4 d;
     port := port d;
     name := name d;
     status := status d;
     messages := messages d;
     details := details d;
     error_state := error_state d;
     warning_state := warning_state d;
     cdd := cdd d;
     info := info d;
     headers := headers d;
     privet_url := privet_url d;
     privet_info := privet_info d;
     cd_page_id := cd_page_id d;
     claim_token := claim_token d;
     automated_claim_url := v;
     claim_url := claim_url d;
     id := id d |}.

Definition set_claim_url (v : option pyval) (d : Device) : Device :=
  {| model := model d;
     ipv4 := ipv4 d;
     port := port d;
     name := name d;
     status := status d;
     messages := messages d;
     details := details d;
     error_state := error_state d;
     warning_state := warning_state d;
     cdd := cdd d;
     info := info d;
     headers := headers d;
     privet_url := privet_url d;
     privet_info := privet_info d;
     cd_page_id := cd_page_id d;
     claim_token := claim_token d;
     automated_claim_url := automated_claim_url d;
     claim_url := v;
     id := id d |}.

Definition set_id (v : option pyval) (d : Device) : Device :=
  {| model := model d;
     ipv4 := ipv4 d;
     port := port d;
     name := name d;
     status := status d;
     messages := messages d;
     details := details d;
     error_state := error_state d;
     warning_state := warning_state d;
     cdd := cdd d;
     info := info d;
     headers := headers d;
     privet_url := privet_url d;
     privet_info := privet_info d;
     cd_page_id := cd_page_id d;
     claim_token := claim_token d;
     automated_claim_url := automated_claim_url d;
     claim_url := claim_url d;
     id := v |}.

(** ** Running a method *)

(** A method runs against the device it is called on and the record of
    all calls made to the outside so far, oldest first. *)
Record St : Type := {
  dev : Device;
  calls : list Call
}.

(** A method body: from a state to what it returns or raises, and the
    state it leaves.  Assignments made before an exception stay. *)
Definition M (A : Type) : Type := St -> outcome A * St.

Definition ret {A} (a : A) : M A := fun s => (Ok a, s).

Definition raise {A} (e : exn) : M A := fun s => (Raise e, s).

Definition bind {A B} (m : M A) (k : A -> M B) : M B :=
  fun s =>
    match m s with
    | (Ok a, s') => k a s'
    | (Raise e, s') => (Raise e, s')
    end.

Declare Scope py_scope.
Delimit Scope py_scope with py.
Notation "x <- m ;; k" := (bind m (fun x => k))
  (at level 61, m at next level, right associativity) : py_scope.
Notation "m ;; k" := (bind m (fun _ => k))
  (at level 61, right associativity) : py_scope.
Local Open Scope py_scope.

(** An operation on values used inside a method. *)
Definition lift {A} (o : outcome A) : M A := fun s => (o, s).

(** [self.a], for an attribute set by [__init__]. *)
Definition self {A} (a : Device -> A) : M A := fun s => (Ok (a (dev s)), s).

(** [self.a], for an attribute [__init__] leaves out. *)
Definition self_opt (attr : string) (a : Device -> option pyval) : M pyval :=
  fun s =>
    match a (dev s) with
    | Some v => (Ok v, s)
    | None => (Raise (AttributeError attr), s)
    end.

(** [self.a = v], through the setter of [a]. *)
Definition assign (set : Device -> Device) : M unit :=
  fun s => (Ok tt, {| dev := set (dev s); calls := calls s |}).

(** [for x in xs: body]. *)
Fixpoint for_each {A} (xs : list A) (body : A -> M unit) : M unit :=
  match xs with
  | [] => ret tt
  | x :: rest => body x ;; for_each rest body
  end.

(** What one pass of the [while] loop of [GetPrivetClaimToken] decides:
    leave the method with a result, or go round again with the counter
    as it now stands. *)
Inductive LoopStep : Type :=
| Return (b : bool)
| Continue (counter : nat).

(** A run of a loop that need not end: finished, or still going when
    the allowance of passes ran out. *)
Inductive run (A : Type) : Type :=
| Done (r : outcome A) (s : St)
| OutOfFuel (s : St).
Arguments Done {A} r s.
Arguments OutOfFuel {A} s.

Section Methods.

Variable E : Env.

(** [self.transport.HTTPReq(...)]: the request goes on record and the
    transport answers. *)
Definition http (r : Request) : M Response :=
  fun s =>
    (Ok (HTTPReq E (calls s) r),
     {| dev := dev s; calls := (calls s ++ [HTTP r])%list |}).

(** [self.cloudprintmgr.<g>(self.name)]. *)
Definition mgr (g : Getter) : M pyval :=
  fun s =>
    (Ok (console E (calls s) g (name (dev s))),
     {| dev := dev s; calls := (calls s ++ [Console g (name (dev s))])%list |}).

(** In the branch for an answer that is not JSON the tests of
    [response['code']] and [response['data']] guard log calls only; the
    loop over [response['headers']] reads every header it is given. *)
Definition GetPrivetInfo : M unit :=
  assign (set_privet_info (PDict [])) ;;
  u <- self privet_url ;;
  response <- http {| req_url := url_info u; req_data := None;
                      req_headers := Some (headers_empty E);
                      req_user := None; req_auth_token := None |} ;;
  let info := PDict (Read E (resp_data response)) in
  is_json <- lift (Py.getitem info (PStr "json")) ;;
  if Py.truthy is_json then
    keys <- lift (Py.iter info) ;;
    for_each keys (fun key =>
      v <- lift (Py.getitem info key) ;;
      p <- self privet_info ;;
      p' <- lift (Py.setitem p key v) ;;
      assign (set_privet_info p')) ;;
    has_token <- lift (Py.contains_str "x-privet-token" info) ;;
    if has_token : bool then
      t <- lift (Py.getitem info (PStr "x-privet-token")) ;;
      assign (set_headers
                (PDict [(PStr "X-Privet-Token", PStr (str_of E t))]))
    else ret tt
  else
    let h := resp_headers response in
    if Py.truthy h then
      keys <- lift (Py.iter h) ;;
      for_each keys (fun key =>
        _ <- lift (Py.getitem h key) ;;
        ret tt)
    else ret tt.

(** [Device(logger, chromedriver, model, privet_port)]; [chromedriver]
    is represented by the [page_id] it carries. *)
Definition init (chromedriver model privet_port : pyval) : outcome unit * St :=
  let ip := PRINTER_IP E in
  let p := if Py.truthy privet_port then privet_port else PRINTER_PORT E in
  GetPrivetInfo
    {| dev :=
         {| model := if Py.truthy model then model else PRINTER_MODEL E;
            ipv4 := ip;
            port := p;
            name := PRINTER_NAME E;
            status := PNone;
            messages := PDict [];
            details := PDict [];
            error_state := PBool false;
            warning_state := PBool false;
            cdd := PDict [];
            info := PNone;
            headers := PNone;
            privet_url := SetPrivetUrls E ip p;
            privet_info := PDict [];
            cd_page_id := chromedriver;
            claim_token := None;
            automated_claim_url := None;
            claim_url := None;
            id := None |};
       calls := [] |}.

Definition RETRY_COUNT : Z := 3.

(** One pass of the loop of [GetDeviceDetails]. *)
Definition GetDeviceDetails_pass : M unit :=
  assign (set_cd_page_id PNone) ;;
  e <- self error_state ;;
  (if negb (Py.truthy e)
   then v <- mgr GetPrinterErrorState ;; assign (set_error_state v)
   else ret tt) ;;
  w <- self warning_state ;;
  (if negb (Py.truthy w)
   then v <- mgr GetPrinterWarningState ;; assign (set_warning_state v)
   else ret tt) ;;
  st <- self status ;;
  (if negb (Py.truthy st)
   then v <- mgr GetPrinterState ;; assign (set_status v)
   else ret tt) ;;
  m <- self messages ;;
  (if negb (Py.truthy m)
   then v <- mgr GetPrinterStateMessages ;; assign (set_messages v)
   else ret tt) ;;
  d <- self details ;;
  (if negb (Py.truthy d)
   then v <- mgr GetPrinterDetails ;; assign (set_details v)
   else ret tt).

Definition GetDeviceDetails : M unit :=
  assign (set_error_state PNone) ;;
  assign (set_warning_state PNone) ;;
  assign (set_status PNone) ;;
  assign (set_messages PNone) ;;
  assign (set_details PNone) ;;
  for_each (Py.range (-1) RETRY_COUNT) (fun _ => GetDeviceDetails_pass).

(** [json.loads(v)]. *)
Definition loads (v : pyval) : M pyval :=
  match v with
  | PStr text =>
      match json_loads E text with
      | Some doc => ret doc
      | None => raise ValueError
      end
  | _ => raise TypeError
  end.

(** [cdd['printers'][0]]. *)
Definition first_printer (cdd : pyval) : M pyval :=
  printers <- lift (Py.getitem cdd (PStr "printers")) ;;
  lift (Py.getitem printers (PInt 0)).

(** [cdd['printers'][0]['capabilities']['printer']]. *)
Definition printer_caps (cdd : pyval) : M pyval :=
  p <- first_printer cdd ;;
  c <- lift (Py.getitem p (PStr "capabilities")) ;;
  lift (Py.getitem c (PStr "printer")).

(** [self.cdd[k] = v]. *)
Definition cdd_store (k v : pyval) : M unit :=
  c <- self cdd ;;
  c' <- lift (Py.setitem c k v) ;;
  assign (set_cdd c').

(** [self.cdd['caps'][k] = v]: the right-hand side is already
    evaluated, then [self.cdd['caps']] is looked up and updated in
    place. *)
Definition caps_store (k v : pyval) : M unit :=
  c <- self cdd ;;
  caps <- lift (Py.getitem c (PStr "caps")) ;;
  caps' <- lift (Py.setitem caps k v) ;;
  cdd_store (PStr "caps") caps'.

Definition ParseCDD : M bool :=
  i <- self info ;;
  if Py.truthy i then
    cdd <- loads i ;;
    has_printers <- lift (Py.contains_str "printers" cdd) ;;
    if has_printers : bool then
      p <- first_printer cdd ;;
      keys <- lift (Py.iter p) ;;
      for_each keys (fun k =>
        if Py.key_eqb k (PStr "capabilities")
        then cdd_store (PStr "caps") (PDict [])
        else
          p <- first_printer cdd ;;
          v <- lift (Py.getitem p k) ;;
          cdd_store k v) ;;
      caps <- printer_caps cdd ;;
      keys <- lift (Py.iter caps) ;;
      for_each keys (fun k =>
        caps <- printer_caps cdd ;;
        v <- lift (Py.getitem caps k) ;;
        caps_store k v) ;;
      ret true
    else ret false
  else ret false.

Definition CancelRegistration : M pyval :=
  u <- self privet_url ;;
  h <- self headers ;;
  response <- http {| req_url := url_cancel u; req_data := Some (PStr "");
                      req_headers := Some h;
                      req_user := Some (USER_EMAIL E);
                      req_auth_token := None |} ;;
  ret (resp_code response).

Definition StartPrivetRegister : M bool :=
  u <- self privet_url ;;
  h <- self headers ;;
  response <- http {| req_url := url_start u; req_data := Some (PStr "");
                      req_headers := Some h;
                      req_user := Some (USER_EMAIL E);
                      req_auth_token := None |} ;;
  ret (LogData E response).

Definition max_cycles : nat := 5.

(** The body of the [while] loop.  The call [LogData(response)] only
    logs here, its result is dropped. *)
Definition GetPrivetClaimToken_body (counter : nat) : M LoopStep :=
  u <- self privet_url ;;
  h <- self headers ;;
  response <- http {| req_url := url_getClaimToken u;
                      req_data := Some (PStr "");
                      req_headers := Some h;
                      req_user := Some (USER_EMAIL E);
                      req_auth_token := None |} ;;
  let data := resp_data response in
  if Py.str_contains "token" data then
    assign (set_claim_token (Some (GetValue E data "token"))) ;;
    assign (set_automated_claim_url
              (Some (GetValue E data "automated_claim_url"))) ;;
    assign (set_claim_url (Some (GetValue E data "claim_url"))) ;;
    ret (Return true)
  else if Py.str_contains "error" data then
    if Py.str_contains "pending_user_action" data
    then ret (Continue (counter + 1))
    else ret (Return false)
  else ret (Continue counter).

(** [while counter < max_cycles: body], then [return False]; [fuel]
    bounds the number of passes. *)
Fixpoint GetPrivetClaimToken_loop (fuel counter : nat) (s : St) : run bool :=
  if Nat.ltb counter max_cycles then
    match fuel with
    | O => OutOfFuel s
    | S fuel' =>
        match GetPrivetClaimToken_body counter s with
        | (Ok (Return b), s') => Done (Ok b) s'
        | (Ok (Continue c), s') => GetPrivetClaimToken_loop fuel' c s'
        | (Raise e, s') => Done (Raise e) s'
        end
    end
  else Done (Ok false) s.

Definition GetPrivetClaimToken (fuel : nat) (s : St) : run bool :=
  GetPrivetClaimToken_loop fuel 0 s.

Definition SendClaimToken (auth_token : pyval) : M bool :=
  t <- self_opt "claim_token" claim_token ;;
  if negb (Py.truthy t) then ret false
  else
    a <- self_opt "automated_claim_url" automated_claim_url ;;
    if negb (Py.truthy a) then ret false
    else
      response <- http {| req_url := a; req_data := Some (PStr "");
                          req_headers := None;
                          req_user := Some (USER_EMAIL E);
                          req_auth_token := Some auth_token |} ;;
      let info := PDict (Read E (resp_data response)) in
      is_json <- lift (Py.getitem info (PStr "json")) ;;
      if Py.truthy is_json then
        success <- lift (Py.getitem info (PStr "success")) ;;
        if Py.truthy success then ret true else ret false
      else ret false.

Definition FinishPrivetRegister : M bool :=
  u <- self privet_url ;;
  h <- self headers ;;
  response <- http {| req_url := url_complete u; req_data := Some (PStr "");
                      req_headers := Some h;
                      req_user := Some (USER_EMAIL E);
                      req_auth_token := None |} ;;
  let info := PDict (Read E (resp_data response)) in
  is_json <- lift (Py.getitem info (PStr "json")) ;;
  (if Py.truthy is_json then
     keys <- lift (Py.iter info) ;;
     for_each keys (fun k =>
       found <- lift (Py.contains_str "device_id" k) ;;
       if found : bool then
         v <- lift (Py.getitem info k) ;;
         assign (set_id (Some v))
       else ret tt)
   else ret tt) ;;
  ret (LogData E response).

Definition UnRegister (auth_token : pyval) : M bool :=
  i <- self_opt "id" id ;;
  if Py.truthy i then
    let delete_url :=
      PStr (str_of E (AUTH_URL_GCP E) ++ "/delete?printerid=" ++ str_of E i) in
    response <- http {| req_url := delete_url; req_data := Some (PStr "");
                        req_headers := None; req_user := None;
                        req_auth_token := Some auth_token |} ;;
    let result := Validate E (resp_data response) in
    if Py.truthy result then
      assign (set_id (Some PNone)) ;;
      ret true
    else ret false
  else ret false.

End Methods.

(** ** A test bench *)

(** Stand-ins for the collaborators, to run the methods on concrete
    responses and documents. *)

Module Json.

Local Open Scope char_scope.

Definition is_space (c : ascii) : bool :=
  match c with
  | " " | "009" | "010" | "013" => true
  | _ => false
  end.

Fixpoint skip_spaces (cs : list ascii) : list ascii :=
  match cs with
  | c :: rest => if is_space c then skip_spaces rest else cs
  | [] => []
  end.

(** The characters up to the closing quote of a string literal. *)
Fixpoint read_string (cs : list ascii) : option (string * list ascii) :=
  match cs with
  | [] => None
  | "034" :: rest => Some (EmptyString, rest)
  | "\" :: _ => None
  | c :: rest =>
      match read_string rest with
      | Some (s, rest') => Some (String c s, rest')
      | None => None
      end
  end.

Definition digit (c : ascii) : option Z :=
  let n := nat_of_ascii c in
  if (48 <=? n)%nat && (n <=? 57)%nat then Some (Z.of_nat (n - 48)) else None.

Fixpoint read_digits (cs : list ascii) (acc : Z) : Z * list ascii :=
  match cs with
  | c :: rest =>
      match digit c with
      | Some d => read_digits rest (10 * acc + d)%Z
      | None => (acc, cs)
      end
  | [] => (acc, [])
  end.

Definition read_number (cs : list ascii) : option (pyval * list ascii) :=
  match cs with
  | c :: _ =>
      match digit c with
      | Some _ => let (z, rest) := read_digits cs 0 in Some (PInt z, rest)
      | None => None
      end
  | [] => None
  end.

Section Containers.

Variable value : list ascii -> option (pyval * list ascii).

(** The elements of an array after its opening bracket. *)
Fixpoint elements (fuel : nat) (cs : list ascii) (acc : list pyval)
  : option (pyval * list ascii) :=
  match fuel with
  | O => None
  | S fuel' =>
      match value cs with
      | Some (v, rest) =>
          match skip_spaces rest with
          | "," :: rest' => elements fuel' rest' (acc ++ [v])%list
          | "]" :: rest' => Some (PList (acc ++ [v])%list, rest')
          | _ => None
          end
      | None => None
      end
  end.

(** The members of an object after its opening brace; a repeated name
    keeps its first place and takes the last value. *)
Fixpoint members (fuel : nat) (cs : list ascii) (acc : list (pyval * pyval))
  : option (pyval * list ascii) :=
  match fuel with
  | O => None
  | S fuel' =>
      match skip_spaces cs with
      | "034" :: rest =>
          match read_string rest with
          | Some (k, rest1) =>
              match skip_spaces rest1 with
              | ":" :: rest2 =>
                  match value rest2 with
                  | Some (v, rest3) =>
                      let acc' := Py.dict_set acc (PStr k) v in
                      match skip_spaces rest3 with
                      | "," :: rest4 => members fuel' rest4 acc'
                      | "}" :: rest4 => Some (PDict acc', rest4)
                      | _ => None
                      end
                  | None => None
                  end
              | _ => None
              end
          | None => None
          end
      | _ => None
      end
  end.

End Containers.

Fixpoint value (fuel : nat) (cs : list ascii) : option (pyval * list ascii) :=
  match fuel with
  | O => None
  | S fuel' =>
      match skip_spaces cs with
      | "{" :: rest =>
          match skip_spaces rest with
          | "}" :: rest' => Some (PDict [], rest')
          | _ => members (value fuel') fuel' rest []
          end
      | "[" :: rest =>
          match skip_spaces rest with
          | "]" :: rest' => Some (PList [], rest')
          | _ => elements (value fuel') fuel' rest []
          end
      | "034" :: rest =>
          match read_string rest with
          | Some (s, rest') => Some (PStr s, rest')
          | None => None
          end
      | "t" :: "r" :: "u" :: "e" :: rest => Some (PBool true, rest)
      | "f" :: "a" :: "l" :: "s" :: "e" :: rest => Some (PBool false, rest)
      | "n" :: "u" :: "l" :: "l" :: rest => Some (PNone, rest)
      | "-" :: rest =>
          match read_number rest with
          | Some (PInt z, rest') => Some (PInt (- z), rest')
          | _ => None
          end
      | cs' => read_number cs'
      end
  end.

(** A reader for the JSON texts of the examples: objects, arrays,
    strings without escape sequences, integers, [true], [false] and
    [null].  Any other text is turned down. *)
Definition loads (text : string) : option pyval :=
  let cs := list_ascii_of_string text in
  match value (S (List.length cs)) cs with
  | Some (v, rest) =>
      match skip_spaces rest with
      | [] => Some v
      | _ => None
      end
  | None => None
  end.

(** A name or string value between double quotes. *)
Definition q (s : string) : string :=
  (String "034" s ++ String "034" EmptyString)%string.

End Json.

Module Bench.

(** Modelled from the spec: [JsonParser.Read], the JsonCodec operation
    [Parse(body) -> {isJson, fields}]; the flag is the entry ['json'] of
    the dictionary that also holds the fields. *)
Definition jparser_Read (body : string) : list (pyval * pyval) :=
  match Json.loads body with
  | Some (PDict fields) => Py.dict_set fields (PStr "json") (PBool true)
  | Some _ => [(PStr "json", PBool true)]
  | None => [(PStr "json", PBool false)]
  end.

(** Modelled from the spec: [JsonParser.GetValue], the JsonCodec
    operation [ExtractField(body, key) -> value|absent]; an absent field
    gives [None]. *)
Definition jparser_GetValue (body key : string) : pyval :=
  match Json.loads body with
  | Some (PDict fields) =>
      match Py.dict_get fields (PStr key) with
      | Some v => v
      | None => PNone
      end
  | _ => PNone
  end.

(** Modelled from the spec: [JsonParser.Validate], the JsonCodec
    operation [Validate(body) -> bool], true when the body parses and
    carries no error. *)
Definition jparser_Validate (body : string) : pyval :=
  match Json.loads body with
  | Some (PDict fields) =>
      match Py.dict_get fields (PStr "error") with
      | Some _ => PBool false
      | None => PBool true
      end
  | _ => PBool false
  end.

(** Modelled from the spec: [Transport.LogData], success or failure of
    the transport layer, read off the status code. *)
Definition transport_LogData (r : Response) : bool :=
  match resp_code r with
  | PInt 200 => true
  | _ => false
  end.

(** [str(v)] for the values that end up in a URL or a header. *)
Definition py_str (v : pyval) : string :=
  match v with
  | PStr s => s
  | PInt z => NilZero.string_of_int (Z.to_int z)
  | PBool true => "True"
  | PBool false => "False"
  | PNone => "None"
  | PList _ => "[...]"
  | PDict _ => "{...}"
  end.

(** Modelled from the spec: [Privet.SetPrivetUrls], the URL set derived
    from address and port with fixed suffix paths. *)
Definition privet_SetPrivetUrls (ip port : pyval) : PrivetUrls :=
  let base := "http://" ++ py_str ip ++ ":" ++ py_str port in
  {| url_info := PStr (base ++ "/info");
     url_start := PStr (base ++ "/register/start");
     url_getClaimToken := PStr (base ++ "/register/getClaimToken");
     url_complete := PStr (base ++ "/register/complete");
     url_cancel := PStr (base ++ "/register/cancel") |}.

(** An environment around a given device server and management page. *)
Definition env (server : list Call -> Request -> Response)
    (page : list Call -> Getter -> pyval -> pyval) : Env :=
  {| PRINTER_MODEL := PStr "LogoJet";
     PRINTER_IP := PStr "192.168.1.20";
     PRINTER_PORT := PInt 8080;
     PRINTER_NAME := PStr "LogoJet 1";
     USER_EMAIL := PStr "tester@example.com";
     AUTH_URL_GCP := PStr "https://cloud.example.com/cloudprint";
     headers_empty := PDict [(PStr "X-Privet-Token", PStr "")];
     SetPrivetUrls := privet_SetPrivetUrls;
     HTTPReq := server;
     LogData := transport_LogData;
     Read := jparser_Read;
     GetValue := jparser_GetValue;
     Validate := jparser_Validate;
     console := page;
     json_loads := Json.loads;
     str_of := py_str |}.

(** A server that gives the same body, with status 200, to every
    request. *)
Definition always (body : string) : list Call -> Request -> Response :=
  fun _ _ => {| resp_code := PInt 200; resp_headers := PDict [];
                resp_data := body |}.

(** A management page on which nothing can be read. *)
Definition blank_page : list Call -> Getter -> pyval -> pyval :=
  fun _ _ _ => PNone.

Definition pending_body : string :=
  "{" ++ Json.q "error" ++ ":" ++ Json.q "pending_user_action" ++ "}".

Definition token_expired_body : string :=
  "{" ++ Json.q "error" ++ ":" ++ Json.q "token_expired" ++ "}".

Definition empty_object_body : string := "{}".

(** The device as [Device(logger, chromedriver)] leaves it. *)
Definition fresh (E : Env) : St := snd (init E PNone PNone PNone).

(** [self.info = text], as [GetDeviceCDD] does before it parses. *)
Definition with_info (text : string) (s : St) : St :=
  {| dev := set_info (PStr text) (dev s); calls := calls s |}.

Definition no_printers_doc : string := "{" ++ Json.q "kind" ++ ":1}".

Definition no_printer_records_doc : string :=
  "{" ++ Json.q "printers" ++ ":[]}".

Definition no_capabilities_doc : string :=
  "{" ++ Json.q "printers" ++ ":[{" ++ Json.q "name" ++ ":" ++ Json.q "X"
  ++ "}]}".

Definition full_doc : string :=
  "{" ++ Json.q "printers" ++ ":[{" ++ Json.q "name" ++ ":" ++ Json.q "X"
  ++ "," ++ Json.q "capabilities" ++ ":{" ++ Json.q "printer" ++ ":{"
  ++ Json.q "color" ++ ":" ++ Json.q "rgb" ++ "}}}]}".

(** A server that answers the [n]-th request it sees with the [n]-th
    body of a script, and with an empty body once the script is over. *)
Definition script (bodies : list string) : list Call -> Request -> Response :=
  fun history _ =>
    {| resp_code := PInt 200; resp_headers := PDict [];
       resp_data := nth (List.length history) bodies "" |}.

Definition token_body : string :=
  "{" ++ Json.q "token" ++ ":" ++ Json.q "abc" ++ ","
  ++ Json.q "automated_claim_url" ++ ":"
  ++ Json.q "https://cloud.example.com/claim/abc" ++ ","
  ++ Json.q "claim_url" ++ ":" ++ Json.q "https://cloud.example.com/c/abc"
  ++ "}".

Definition success_false_body : string :=
  "{" ++ Json.q "success" ++ ":false}".

(** A management page that is slow to fill: the printer state can be
    read once the page has been consulted five times, the state messages
    at once, and there is never an error, a warning or a detail. *)
Definition slow_page : list Call -> Getter -> pyval -> pyval :=
  fun history g _ =>
    match g with
    | GetPrinterState =>
        if (5 <=? List.length history)%nat then PStr "ONLINE" else PNone
    | GetPrinterStateMessages => PDict [(PStr "msg", PStr "ready")]
    | GetPrinterErrorState | GetPrinterWarningState => PBool false
    | GetPrinterDetails => PDict []
    end.

(** The state a run of a loop stopped in. *)
Definition state_of {A} (r : run A) : St :=
  match r with
  | Done _ s => s
  | OutOfFuel s => s
  end.

End Bench.

(** ** Vocabulary of the statements *)

(** The request [GetPrivetClaimToken] sends on every pass. *)
Definition poll_request (E : Env) (d : Device) : Request :=
  {| req_url := url_getClaimToken (privet_url d);
     req_data := Some (PStr "");
     req_headers := Some (headers d);
     req_user := Some (USER_EMAIL E);
     req_auth_token := None |}.

(** The request [FinishPrivetRegister] sends. *)
Definition complete_request (E : Env) (d : Device) : Request :=
  {| req_url := url_complete (privet_url d);
     req_data := Some (PStr "");
     req_headers := Some (headers d);
     req_user := Some (USER_EMAIL E);
     req_auth_token := None |}.

(** The request [SendClaimToken] sends to the automated claim URL [a]. *)
Definition claim_request (E : Env) (auth_token a : pyval) : Request :=
  {| req_url := a;
     req_data := Some (PStr "");
     req_headers := None;
     req_user := Some (USER_EMAIL E);
     req_auth_token := Some auth_token |}.

(** The request [UnRegister] sends for the device id [i]. *)
Definition delete_request (E : Env) (auth_token i : pyval) : Request :=
  {| req_url :=
       PStr (str_of E (AUTH_URL_GCP E) ++ "/delete?printerid=" ++ str_of E i);
     req_data := Some (PStr "");
     req_headers := None;
     req_user := None;
     req_auth_token := Some auth_token |}.

(** The request [__init__] sends through [GetPrivetInfo]. *)
Definition info_request (E : Env) (d : Device) : Request :=
  {| req_url := url_info (privet_url d);
     req_data := None;
     req_headers := Some (headers_empty E);
     req_user := None;
     req_auth_token := None |}.

(** The registration attributes are all still missing. *)
Definition unregistered (d : Device) : Prop :=
  claim_token d = None /\ automated_claim_url d = None /\
  claim_url d = None /\ id d = None.

(** A method body that carries a property of the device through. *)
Definition keeps {A} (P : Device -> Prop) (m : M A) : Prop :=
  forall s, P (dev s) -> P (dev (snd (m s))).

(** A method body that makes no call to the outside. *)
Definition silent {A} (m : M A) : Prop :=
  forall s, calls (snd (m s)) = calls s.

(** The snapshot attribute each reader of the management page fills. *)
Definition field (g : Getter) : Device -> pyval :=
  match g with
  | GetPrinterErrorState => error_state
  | GetPrinterWarningState => warning_state
  | GetPrinterState => status
  | GetPrinterStateMessages => messages
  | GetPrinterDetails => details
  end.

Definition set_field (g : Getter) : pyval -> Device -> Device :=
  match g with
  | GetPrinterErrorState => set_error_state
  | GetPrinterWarningState => set_warning_state
  | GetPrinterState => set_status
  | GetPrinterStateMessages => set_messages
  | GetPrinterDetails => set_details
  end.

(** One guarded fetch of [GetDeviceDetails]:
    [if not self.f: self.f = self.cloudprintmgr.g(self.name)]. *)
Definition refresh (E : Env) (g : Getter) : M unit :=
  (v <- self (field g) ;;
   if negb (Py.truthy v)
   then x <- mgr E g ;; assign (set_field g x)
   else ret tt)%py.

(** The state one guarded fetch leaves. *)
Definition refreshed (E : Env) (g : Getter) (s : St) : St :=
  if Py.truthy (field g (dev s)) then s
  else {| dev := set_field g (console E (calls s) g (name (dev s))) (dev s);
          calls := (calls s ++ [Console g (name (dev s))])%list |}.

Definition Getter_eqb (a b : Getter) : bool :=
  match a, b with
  | GetPrinterErrorState, GetPrinterErrorState
  | GetPrinterWarningState, GetPrinterWarningState
  | GetPrinterState, GetPrinterState
  | GetPrinterStateMessages, GetPrinterStateMessages
  | GetPrinterDetails, GetPrinterDetails => true
  | _, _ => false
  end.

Definition is_fetch (g : Getter) (c : Call) : bool :=
  match c with
  | Console g' _ => Getter_eqb g g'
  | HTTP _ => false
  end.

(** How often reader [g] was called in a record of calls. *)
Definition fetches (g : Getter) (cs : list Call) : nat :=
  List.length (filter (is_fetch g) cs).



Definition is_PStr (v : pyval) : bool :=
  match v with
  | PStr _ => true
  | _ => false
  end.

(** Response headers as a transport hands them over: nothing at all, or
    a dictionary from header names to values. *)
Definition header_mapping (v : pyval) : bool :=
  match v with
  | PDict hd => forallb is_PStr (map fst hd)
  | _ => negb (Py.truthy v)
  end.




(** ** The methods that drive the browser and the service *)

(** A page element found by the chromedriver, with the [text] it
    shows. *)
Record Element : Type := {
  ref : string;
  text : string
}.

(** One call to the chromedriver [self.cd]. *)
Inductive CdCall : Type :=
| CdGet (url : pyval)
| CdFindID (element_id : string)
| CdSendKeys (keys : pyval) (element : Element)
| CdClickElement (element : option Element)
| CdFindXPath (xpath : string).

(** The chromedriver passed to [__init__] and the constant it is sent
    to.  It answers as a function of all calls made to it so far; a
    search that finds nothing gives [None]. *)
Record ChromeDriver : Type := {
  GCP_SIMULATE : pyval;
  FindID : list CdCall -> string -> option Element;
  SendKeys : list CdCall -> pyval -> Element -> bool;
  ClickElement : list CdCall -> option Element -> bool;
  FindXPath : list CdCall -> string -> option Element
}.

(** The state of a method that also drives the browser. *)
Record Browsing : Type := {
  st : St;
  cd_calls : list CdCall
}.

Definition GetDeviceCDD (E : Env) (C : ChromeDriver) (device_id : pyval)
    (b : Browsing) : outcome bool * Browsing :=
  let h1 := (cd_calls b ++ [CdGet (GCP_SIMULATE C)])%list in
  let printer_lookup := FindID C h1 "printer_printerid" in
  let h2 := (h1 ++ [CdFindID "printer_printerid"])%list in
  match printer_lookup with
  | None => (Ok false, {| st := st b; cd_calls := h2 |})
  | Some lookup =>
      let h3 := (h2 ++ [CdSendKeys device_id lookup])%list in
      if negb (SendKeys C h2 device_id lookup)
      then (Ok false, {| st := st b; cd_calls := h3 |})
      else
        let printer_submit := FindID C h3 "printer_submit" in
        let h4 := (h3 ++ [CdFindID "printer_submit"])%list in
        let h5 := (h4 ++ [CdClickElement printer_submit])%list in
        if negb (ClickElement C h4 printer_submit)
        then (Ok false, {| st := st b; cd_calls := h5 |})
        else
          let printer_info := FindXPath C h5 "html" in
          let h6 := (h5 ++ [CdFindXPath "html"])%list in
          match printer_info with
          | None => (Ok false, {| st := st b; cd_calls := h6 |})
          | Some page =>
              match
                ParseCDD E {| dev := set_info (PStr (text page)) (dev (st b));
                              calls := calls (st b) |}
              with
              | (Ok _, s') => (Ok true, {| st := s'; cd_calls := h6 |})
              | (Raise e, s') => (Raise e, {| st := s'; cd_calls := h6 |})
              end
          end
  end.

(** [v.iteritems()]: only a dictionary has the method. *)
Definition iteritems (v : pyval) : outcome (list (pyval * pyval)) :=
  match v with
  | PDict d => Ok d
  | _ => Raise (AttributeError "iteritems")
  end.

(** [GetPrinterInfo], around the helper [Extract] of [_common].  The
    helper gets the parsed response and the object [self.info]; it
    returns or raises, and leaves that object with some content.  An
    object that cannot be changed in place, such as [None] or a
    string, is still what it was.  The loop over the items only
    logs. *)
Definition GetPrinterInfo (E : Env)
    (Extract : pyval -> pyval -> outcome unit * pyval)
    (auth_token : pyval) : M bool :=
  i <- self_opt "id" id ;;
  if Py.truthy i then
    let printer_url :=
      PStr (str_of E (AUTH_URL_GCP E) ++ "/printer?printerid=" ++ str_of E i
            ++ "&usecdd=True") in
    response <- http E {| req_url := printer_url; req_data := None;
                          req_headers := None; req_user := None;
                          req_auth_token := Some auth_token |} ;;
    let parsed := PDict (Read E (resp_data response)) in
    out <- self info ;;
    let (extracted, out') := Extract parsed out in
    (if Py.hashable out then ret tt else assign (set_info out')) ;;
    lift extracted ;;
    out <- self info ;;
    items <- lift (iteritems out) ;;
    for_each items (fun _ => ret tt) ;;
    ret true
  else ret false.

(** The request [GetPrinterInfo] sends for the device id [i]. *)
Definition printer_request (E : Env) (auth_token i : pyval) : Request :=
  {| req_url :=
       PStr (str_of E (AUTH_URL_GCP E) ++ "/printer?printerid=" ++ str_of E i
             ++ "&usecdd=True");
     req_data := None;
     req_headers := None;
     req_user := None;
     req_auth_token := Some auth_token |}.

(** The request [CancelRegistration] sends. *)
Definition cancel_request (E : Env) (d : Device) : Request :=
  {| req_url := url_cancel (privet_url d);
     req_data := Some (PStr "");
     req_headers := Some (headers d);
     req_user := Some (USER_EMAIL E);
     req_auth_token := None |}.

(** ['device_id' in k], for a key [k] that is a string. *)
Definition names_device_id (k : pyval) : bool :=
  match k with
  | PStr t => Py.str_contains "device_id" t
  | _ => false
  end.

(** [cdd['printers'][0]['capabilities']['printer']] as an operation on
    values. *)
Definition caps_path (doc : pyval) : outcome pyval :=
  match Py.getitem doc (PStr "printers") with
  | Ok printers =>
      match Py.getitem printers (PInt 0) with
      | Ok p =>
          match Py.getitem p (PStr "capabilities") with
          | Ok c => Py.getitem c (PStr "printer")
          | Raise e => Raise e
          end
      | Raise e => Raise e
      end
  | Raise e => Raise e
  end.

(** What [self.info] can be: [None] from [__init__] or the text of a
    page from [GetDeviceCDD]. *)
Definition info_is_text (d : Device) : Prop :=
  info d = PNone \/ exists t, info d = PStr t.

Module Lab.

(** A chromedriver on which every step works and whose page shows
    [doc]. *)
Definition browser (doc : string) : ChromeDriver :=
  {| GCP_SIMULATE := PStr "https://cloud.example.com/cloudprint/simulate.html";
     FindID := fun _ i => Some {| ref := i; text := "" |};
     SendKeys := fun _ _ _ => true;
     ClickElement := fun _ _ => true;
     FindXPath := fun _ x => Some {| ref := x; text := doc |} |}.

(** A chromedriver that finds nothing. *)
Definition blind_browser : ChromeDriver :=
  {| GCP_SIMULATE := PStr "https://cloud.example.com/cloudprint/simulate.html";
     FindID := fun _ _ => None;
     SendKeys := fun _ _ _ => false;
     ClickElement := fun _ _ => false;
     FindXPath := fun _ _ => None |}.

(** An [Extract] that copies the top-level items into a dictionary and
    raises on anything else. *)
Definition copy_items (parsed out : pyval) : outcome unit * pyval :=
  match parsed, out with
  | PDict items, PDict d =>
      (Ok tt, PDict (fold_left (fun acc kv => Py.dict_set acc (fst kv) (snd kv))
                       items d))
  | _, _ => (Raise TypeError, out)
  end.

Definition info_token_body : string :=
  "{" ++ Json.q "x-privet-token" ++ ":" ++ Json.q "tok-123" ++ ","
  ++ Json.q "name" ++ ":" ++ Json.q "LogoJet" ++ "}".

Definition registered_body : string :=
  "{" ++ Json.q "device_id" ++ ":" ++ Json.q "dev-42" ++ "}".

Definition invalid_request_body : string :=
  "{" ++ Json.q "error" ++ ":" ++ Json.q "invalid_request" ++ "}".

Definition success_true_body : string :=
  "{" ++ Json.q "success" ++ ":true}".

(** A management page on which everything can be read at once. *)
Definition ready_page : list Call -> Getter -> pyval -> pyval :=
  fun _ g _ =>
    match g with
    | GetPrinterErrorState | GetPrinterWarningState => PBool true
    | GetPrinterState => PStr "ONLINE"
    | GetPrinterStateMessages => PDict [(PStr "msg", PStr "ready")]
    | GetPrinterDetails => PDict [(PStr "uptime", PInt 12)]
    end.


(** A device that answers every request with an HTML page and the
    headers that go with it. *)
Definition html_server : list Call -> Request -> Response :=
  fun _ _ =>
    {| resp_code := PInt 503;
       resp_headers := PDict [(PStr "Content-Type", PStr "text/html");
                              (PStr "Retry-After", PStr "30")];
       resp_data := "<html>busy</html>" |}.

(** A transport that hands over a number where the headers should
    be. *)
Definition odd_headers_server : list Call -> Request -> Response :=
  fun _ _ =>
    {| resp_code := PInt 503; resp_headers := PInt 7;
       resp_data := "<html>busy</html>" |}.

End Lab.

(** ** The monad *)

Lemma bind_ok {A B} (m : M A) (k : A -> M B) s a s' :
  m s = (Ok a, s') -> bind m k s = k a s'.
Proof. intros H. unfold bind. now rewrite H. Qed.

Lemma bind_raise {A B} (m : M A) (k : A -> M B) s e s' :
  m s = (Raise e, s') -> bind m k s = (Raise e, s').
Proof. intros H. unfold bind. now rewrite H. Qed.

Section Keeps.

Context (P : Device -> Prop).

Lemma keeps_ret {A} (a : A) : keeps P (ret a).
Proof. intros s H. exact H. Qed.

Lemma keeps_raise {A} e : keeps P (@raise A e).
Proof. intros s H. exact H. Qed.

Lemma keeps_lift {A} (o : outcome A) : keeps P (lift o).
Proof. intros s H. exact H. Qed.

Lemma keeps_self {A} (a : Device -> A) : keeps P (self a).
Proof. intros s H. exact H. Qed.

Lemma keeps_self_opt attr a : keeps P (self_opt attr a).
Proof. intros s H. unfold self_opt. now destruct (a (dev s)). Qed.

Lemma keeps_http E r : keeps P (http E r).
Proof. intros s H. exact H. Qed.

Lemma keeps_mgr E g : keeps P (mgr E g).
Proof. intros s H. exact H. Qed.

Lemma keeps_assign f : (forall d, P d -> P (f d)) -> keeps P (assign f).
Proof. intros Hf s H. apply Hf, H. Qed.

Lemma keeps_bind {A B} (m : M A) (k : A -> M B) :
  keeps P m -> (forall a, keeps P (k a)) -> keeps P (bind m k).
Proof.
  intros Hm Hk s H. unfold bind.
  specialize (Hm s H). destruct (m s) as [[a | e] s1]; simpl in *.
  - apply Hk, Hm.
  - exact Hm.
Qed.

Lemma keeps_for_each {A} (xs : list A) (body : A -> M unit) :
  (forall x, keeps P (body x)) -> keeps P (for_each xs body).
Proof.
  intros Hb. induction xs as [| x xs IH]; simpl.
  - apply keeps_ret.
  - apply keeps_bind; [apply Hb | intros _; exact IH].
Qed.

End Keeps.

Section Silent.

Lemma silent_ret {A} (a : A) : silent (ret a).
Proof. intros s. reflexivity. Qed.

Lemma silent_raise {A} e : silent (@raise A e).
Proof. intros s. reflexivity. Qed.

Lemma silent_lift {A} (o : outcome A) : silent (lift o).
Proof. intros s. reflexivity. Qed.

Lemma silent_self {A} (a : Device -> A) : silent (self a).
Proof. intros s. reflexivity. Qed.

Lemma silent_assign f : silent (assign f).
Proof. intros s. reflexivity. Qed.

Lemma silent_bind {A B} (m : M A) (k : A -> M B) :
  silent m -> (forall a, silent (k a)) -> silent (bind m k).
Proof.
  intros Hm Hk s. unfold bind.
  specialize (Hm s). destruct (m s) as [[a | e] s1]; simpl in *.
  - now rewrite Hk.
  - exact Hm.
Qed.

Lemma silent_for_each {A} (xs : list A) (body : A -> M unit) :
  (forall x, silent (body x)) -> silent (for_each xs body).
Proof.
  intros Hb. induction xs as [| x xs IH]; simpl.
  - apply silent_ret.
  - apply silent_bind; [apply Hb | intros _; exact IH].
Qed.

End Silent.

Create HintDb keeps.
Create HintDb silent.

#[local] Hint Resolve keeps_ret keeps_raise keeps_lift keeps_self
  keeps_self_opt keeps_http keeps_mgr keeps_for_each : keeps.
#[local] Hint Resolve silent_ret silent_raise silent_lift silent_self
  silent_assign silent_for_each : silent.

(** Splits a body along its binds and branches, leaving the
    assignments. *)
Ltac keeps_step :=
  match goal with
  | |- keeps _ (bind _ _) => apply keeps_bind; [| intros ?]
  | |- keeps _ (for_each _ _) => apply keeps_for_each; intros ?
  | |- keeps _ (if ?c then _ else _) => destruct c
  | |- keeps _ (match ?c with _ => _ end) => destruct c
  | |- keeps _ (assign _) => apply keeps_assign; intros ? ?
  | |- keeps _ _ => solve [auto with keeps]
  end.

(** ** Construction *)

Lemma GetPrivetInfo_keeps_unregistered E :
  keeps unregistered (GetPrivetInfo E).
Proof.
  unfold GetPrivetInfo. repeat keeps_step; assumption.
Qed.

(** [__init__] assigns none of [claim_token], [automated_claim_url],
    [claim_url] and [id], in no environment and for no arguments. *)
Lemma init_unregistered E chromedriver model privet_port :
  unregistered (dev (snd (init E chromedriver model privet_port))).
Proof.
  unfold init. apply GetPrivetInfo_keeps_unregistered.
  repeat split.
Qed.

(** ** Registration *)

Lemma SendClaimToken_no_attribute E auth_token s :
  claim_token (dev s) = None ->
  SendClaimToken E auth_token s = (Raise (AttributeError "claim_token"), s).
Proof.
  intros H. unfold SendClaimToken, bind, self_opt. now rewrite H.
Qed.

Lemma UnRegister_no_attribute E auth_token s :
  id (dev s) = None ->
  UnRegister E auth_token s = (Raise (AttributeError "id"), s).
Proof.
  intros H. unfold UnRegister, bind, self_opt. now rewrite H.
Qed.

(** C4, on the code: on a device that has just been constructed, in any
    environment, [SendClaimToken] sends nothing, yet it does not return
    [False] either: reading [self.claim_token], which [__init__] never
    assigned, raises [AttributeError]. *)
Theorem SendClaimToken_fresh_raises E chromedriver model privet_port auth_token :
  let s := snd (init E chromedriver model privet_port) in
  SendClaimToken E auth_token s = (Raise (AttributeError "claim_token"), s).
Proof.
  intros s. apply SendClaimToken_no_attribute.
  apply (init_unregistered E chromedriver model privet_port).
Qed.

(** C5, on the code: on a device that has just been constructed, in any
    environment, [UnRegister] sends no delete request, yet it does not
    return [False] either: reading [self.id], which [__init__] never
    assigned, raises [AttributeError]. *)
Theorem UnRegister_fresh_raises E chromedriver model privet_port auth_token :
  let s := snd (init E chromedriver model privet_port) in
  UnRegister E auth_token s = (Raise (AttributeError "id"), s).
Proof.
  intros s. apply UnRegister_no_attribute.
  apply (init_unregistered E chromedriver model privet_port).
Qed.

(** Once the attributes exist, both guards work as written. *)
Lemma SendClaimToken_empty_token E auth_token s t :
  claim_token (dev s) = Some t -> Py.truthy t = false ->
  SendClaimToken E auth_token s = (Ok false, s).
Proof.
  intros H Ht. unfold SendClaimToken, bind, self_opt. rewrite H, Ht.
  reflexivity.
Qed.

Lemma UnRegister_empty_id E auth_token s i :
  id (dev s) = Some i -> Py.truthy i = false ->
  UnRegister E auth_token s = (Ok false, s).
Proof.
  intros H Hi. unfold UnRegister, bind, self_opt. rewrite H, Hi.
  reflexivity.
Qed.

(** A key that occurs in a dictionary is found there. *)
Lemma dict_get_In (d : list (pyval * pyval)) (k : pyval) :
  In k (map fst d) -> is_PStr k = true -> Py.dict_get d k <> None.
Proof.
  intros Hin Hk. destruct k as [| | | k | |]; try discriminate. clear Hk.
  induction d as [| [k' v] d IH]; simpl in *; [contradiction |].
  destruct Hin as [-> | Hin].
  - simpl. now rewrite String.eqb_refl.
  - destruct (Py.key_eqb k' (PStr k)); [discriminate | now apply IH].
Qed.

(** The scan of [FinishPrivetRegister] over string keys of [info] ends
    normally and sends nothing. *)
Lemma scan_device_id (info : list (pyval * pyval)) (keys : list pyval) s :
  (forall k, In k keys -> is_PStr k = true /\ Py.dict_get info k <> None) ->
  exists d',
    for_each keys (fun k =>
      found <- lift (Py.contains_str "device_id" k) ;;
      if found : bool then
        v <- lift (Py.getitem (PDict info) k) ;;
        assign (set_id (Some v))
      else ret tt) s
    = (Ok tt, {| dev := d'; calls := calls s |}).
Proof.
  revert s. induction keys as [| k keys IH]; intros s Hk.
  - exists (dev s). now destruct s.
  - destruct (Hk k (or_introl eq_refl)) as [Hstr Hget].
    destruct k as [| | | k | |]; try discriminate.
    simpl. unfold bind at 1. unfold bind at 1. unfold lift at 1. simpl.
    destruct (Py.str_contains "device_id" k).
    + unfold bind at 1. unfold lift at 1. simpl.
      destruct (Py.dict_get info (PStr k)) as [v |]; [| contradiction].
      unfold assign. simpl.
      apply (IH {| dev := set_id (Some v) (dev s); calls := calls s |}).
      intros k' Hin. apply Hk. now right.
    + unfold ret at 1. apply IH. intros k' Hin. apply Hk. now right.
Qed.

Lemma FinishPrivetRegister_calls E s :
  calls (snd (FinishPrivetRegister E s))
  = (calls s ++ [HTTP (complete_request E (dev s))])%list.
Proof.
  unfold FinishPrivetRegister.
  unfold bind at 1. unfold self at 1.
  unfold bind at 1. unfold self at 1.
  unfold bind at 1. unfold http at 1.
  match goal with
  | |- calls (snd (?m ?s1)) = _ =>
      assert (Hs : silent m); [| now rewrite Hs]
  end.
  repeat first
    [ apply silent_bind; [| intros ?]
    | apply silent_for_each; intros ?
    | match goal with
      | |- silent (if ?c then _ else _) => destruct c
      end
    | solve [auto with silent] ].
Qed.

(** C2, as the code has it: [FinishPrivetRegister] looks at no
    registration state.  On every device, whether [SendClaimToken] has
    succeeded or not, it sends the request to the completion endpoint,
    and when the body reads as a dictionary with a ['json'] entry and
    string keys it returns what [LogData] makes of the response. *)
Theorem FinishPrivetRegister_unconditional E s :
  let response := HTTPReq E (calls s) (complete_request E (dev s)) in
  let info := Read E (resp_data response) in
  Py.dict_get info (PStr "json") <> None ->
  forallb is_PStr (map fst info) = true ->
  fst (FinishPrivetRegister E s) = Ok (LogData E response) /\
  calls (snd (FinishPrivetRegister E s))
  = (calls s ++ [HTTP (complete_request E (dev s))])%list.
Proof.
  intros response info Hjson Hkeys. split; [| apply FinishPrivetRegister_calls].
  unfold FinishPrivetRegister.
  unfold bind at 1. unfold self at 1.
  unfold bind at 1. unfold self at 1.
  unfold bind at 1. unfold http at 1.
  fold (complete_request E (dev s)). fold response. fold info.
  unfold bind at 1. unfold lift at 1. simpl.
  destruct (Py.dict_get info (PStr "json")) as [j |]; [| contradiction].
  unfold bind at 1.
  destruct (Py.truthy j).
  - unfold bind at 1. unfold lift at 1. simpl.
    match goal with
    | |- context [for_each ?ks ?body ?s1] =>
        destruct (scan_device_id info ks s1) as [d' Hscan]
    end.
    + intros k Hin. rewrite forallb_forall in Hkeys.
      split; [now apply Hkeys | apply dict_get_In; [exact Hin | now apply Hkeys]].
    + simpl in Hscan. rewrite Hscan. reflexivity.
  - reflexivity.
Qed.

(** On the test bench: a device fresh from [__init__], a server that
    answers every request with an empty JSON object. *)
Lemma FinishPrivetRegister_unconditional_witness :
  let E := Bench.env (Bench.always Bench.empty_object_body) Bench.blank_page in
  let s := Bench.fresh E in
  fst (FinishPrivetRegister E s) = Ok true /\
  calls (snd (FinishPrivetRegister E s))
  = (calls s ++ [HTTP (complete_request E (dev s))])%list.
Proof.
  intros E s.
  apply (FinishPrivetRegister_unconditional E s); vm_compute;
    [discriminate | reflexivity].
Defined.

(** C2, as the spec has it, fails: on a device on which nothing but
    [__init__] has run, so that no claim token was ever sent,
    [FinishPrivetRegister] is not turned away; it sends the completion
    request and returns [True]. *)
Lemma FinishPrivetRegister_before_SendClaimToken :
  let E := Bench.env (Bench.always Bench.empty_object_body) Bench.blank_page in
  let s := Bench.fresh E in
  calls s = [HTTP (info_request E (dev s))] /\
  claim_token (dev s) = None /\
  FinishPrivetRegister E s
  = (Ok true,
     {| dev := dev s;
        calls := [HTTP (info_request E (dev s));
                  HTTP (complete_request E (dev s))] |}).
Proof.
  vm_compute. repeat split; reflexivity.
Qed.

(** What [SendClaimToken] does once both guards are passed: one request
    to the automated claim URL, and a result read off the entries
    ['json'] and ['success'] of the parsed body. *)
Lemma SendClaimToken_sent E auth_token s t a :
  claim_token (dev s) = Some t -> Py.truthy t = true ->
  automated_claim_url (dev s) = Some a -> Py.truthy a = true ->
  let request := claim_request E auth_token a in
  let info := Read E (resp_data (HTTPReq E (calls s) request)) in
  SendClaimToken E auth_token s
  = (match Py.dict_get info (PStr "json") with
     | None => Raise (KeyError (PStr "json"))
     | Some j =>
         if Py.truthy j then
           match Py.dict_get info (PStr "success") with
           | None => Raise (KeyError (PStr "success"))
           | Some v => Ok (Py.truthy v)
           end
         else Ok false
     end,
     {| dev := dev s; calls := (calls s ++ [HTTP request])%list |}).
Proof.
  intros Ht Htt Ha Hat request info.
  unfold SendClaimToken, bind, self_opt, http, lift, ret.
  rewrite Ht. cbv beta iota. rewrite Htt. cbn [negb]. cbv beta iota.
  rewrite Ha. cbv beta iota. rewrite Hat. cbn [negb]. cbv beta iota.
  fold (claim_request E auth_token a). fold request. fold info.
  unfold Py.getitem. cbn [Py.hashable]. cbv beta iota.
  destruct (Py.dict_get info (PStr "json")) as [j |]; [| reflexivity].
  destruct (Py.truthy j); [| reflexivity].
  destruct (Py.dict_get info (PStr "success")) as [v |]; [| reflexivity].
  now destruct (Py.truthy v).
Qed.

(** X8: [SendClaimToken] gives [True] only for an answer that reads as
    JSON and carries a true ['success'] entry. *)
Lemma SendClaimToken_true_only E auth_token s :
  fst (SendClaimToken E auth_token s) = Ok true ->
  exists a j v,
    automated_claim_url (dev s) = Some a /\
    let info :=
      Read E (resp_data (HTTPReq E (calls s) (claim_request E auth_token a))) in
    Py.dict_get info (PStr "json") = Some j /\ Py.truthy j = true /\
    Py.dict_get info (PStr "success") = Some v /\ Py.truthy v = true.
Proof.
  destruct (claim_token (dev s)) as [t |] eqn:Ht.
  2:{ rewrite SendClaimToken_no_attribute by exact Ht. discriminate. }
  destruct (Py.truthy t) eqn:Htt.
  2:{ rewrite (SendClaimToken_empty_token E auth_token s t Ht Htt).
      discriminate. }
  destruct (automated_claim_url (dev s)) as [a |] eqn:Ha.
  2:{ unfold SendClaimToken, bind, self_opt.
      rewrite Ht; cbv beta iota; rewrite Htt; cbn [negb]; cbv beta iota.
      rewrite Ha. discriminate. }
  destruct (Py.truthy a) eqn:Hat.
  2:{ unfold SendClaimToken, bind, self_opt.
      rewrite Ht; cbv beta iota; rewrite Htt; cbn [negb]; cbv beta iota.
      rewrite Ha; cbv beta iota; rewrite Hat. discriminate. }
  rewrite (SendClaimToken_sent E auth_token s t a Ht Htt Ha Hat). simpl.
  intros H. exists a.
  destruct (Py.dict_get _ (PStr "json")) as [j |]; [| discriminate].
  destruct (Py.truthy j) eqn:Hj; [| discriminate].
  destruct (Py.dict_get _ (PStr "success")) as [v |]; [| discriminate].
  exists j, v. repeat split; try assumption. now inversion H.
Qed.

(** The part of C6 the code keeps: a ['success'] entry that is there
    and false gives [False]. *)
Lemma SendClaimToken_false_indicator E auth_token s t a j v :
  claim_token (dev s) = Some t -> Py.truthy t = true ->
  automated_claim_url (dev s) = Some a -> Py.truthy a = true ->
  let info :=
    Read E (resp_data (HTTPReq E (calls s) (claim_request E auth_token a))) in
  Py.dict_get info (PStr "json") = Some j ->
  Py.dict_get info (PStr "success") = Some v -> Py.truthy v = false ->
  fst (SendClaimToken E auth_token s) = Ok false.
Proof.
  intros Ht Htt Ha Hat info Hj Hv Hvf.
  rewrite (SendClaimToken_sent E auth_token s t a Ht Htt Ha Hat). simpl.
  fold info. rewrite Hj, Hv, Hvf. now destruct (Py.truthy j).
Qed.

(** The part of C6 the code breaks, for every environment: a body that
    reads as JSON and has no ['success'] entry makes the subscript
    [info['success']] raise. *)
Lemma SendClaimToken_absent_indicator E auth_token s t a j :
  claim_token (dev s) = Some t -> Py.truthy t = true ->
  automated_claim_url (dev s) = Some a -> Py.truthy a = true ->
  let info :=
    Read E (resp_data (HTTPReq E (calls s) (claim_request E auth_token a))) in
  Py.dict_get info (PStr "json") = Some j -> Py.truthy j = true ->
  Py.dict_get info (PStr "success") = None ->
  fst (SendClaimToken E auth_token s) = Raise (KeyError (PStr "success")).
Proof.
  intros Ht Htt Ha Hat info Hj Hjt Hv.
  rewrite (SendClaimToken_sent E auth_token s t a Ht Htt Ha Hat). simpl.
  fold info. now rewrite Hj, Hjt, Hv.
Qed.

(** C6, on the code: a device obtains its claim token, sends it, and
    the service answers with the well-formed JSON object [{}], which has
    no success indicator.  [SendClaimToken] sends the request and then
    raises [KeyError] where the claim has it return [False]. *)
Theorem SendClaimToken_absent_success_raises :
  let E := Bench.env
             (Bench.script [Bench.empty_object_body; Bench.token_body;
                            Bench.empty_object_body])
             Bench.blank_page in
  let auth_token := PStr "ya29.owner" in
  let s := Bench.state_of (GetPrivetClaimToken E 1 (Bench.fresh E)) in
  GetPrivetClaimToken E 1 (Bench.fresh E) = Done (Ok true) s /\
  automated_claim_url (dev s) = Some (PStr "https://cloud.example.com/claim/abc") /\
  resp_data (HTTPReq E (calls s)
               (claim_request E auth_token
                  (PStr "https://cloud.example.com/claim/abc")))
  = Bench.empty_object_body /\
  Read E Bench.empty_object_body = [(PStr "json", PBool true)] /\
  SendClaimToken E auth_token s
  = (Raise (KeyError (PStr "success")),
     {| dev := dev s;
        calls := (calls s ++
                  [HTTP (claim_request E auth_token
                           (PStr "https://cloud.example.com/claim/abc"))])%list |}).
Proof.
  vm_compute. repeat split; reflexivity.
Qed.

(** On the same bench, an explicit [false] indicator gives [False]. *)
Example SendClaimToken_success_false :
  let E := Bench.env
             (Bench.script [Bench.empty_object_body; Bench.token_body;
                            Bench.success_false_body])
             Bench.blank_page in
  let s := Bench.state_of (GetPrivetClaimToken E 1 (Bench.fresh E)) in
  fst (SendClaimToken E (PStr "ya29.owner") s) = Ok false.
Proof. vm_compute. reflexivity. Qed.

(** ** The claim token poll *)

(** The device once the three claim attributes are taken from a body. *)
Lemma GetPrivetClaimToken_body_eq E counter s :
  let request := poll_request E (dev s) in
  let data := resp_data (HTTPReq E (calls s) request) in
  let s1 := {| dev := dev s; calls := (calls s ++ [HTTP request])%list |} in
  GetPrivetClaimToken_body E counter s
  = if Py.str_contains "token" data then
      (Ok (Return true),
       {| dev := set_claim_url (Some (GetValue E data "claim_url"))
                   (set_automated_claim_url
                      (Some (GetValue E data "automated_claim_url"))
                      (set_claim_token (Some (GetValue E data "token"))
                         (dev s)));
          calls := calls s1 |})
    else if Py.str_contains "error" data then
      if Py.str_contains "pending_user_action" data
      then (Ok (Continue (counter + 1)), s1)
      else (Ok (Return false), s1)
    else (Ok (Continue counter), s1).
Proof.
  intros request data s1.
  unfold GetPrivetClaimToken_body, bind, self, http.
  fold (poll_request E (dev s)). fold request. fold data.
  destruct (Py.str_contains "token" data); [reflexivity |].
  destruct (Py.str_contains "error" data); [| reflexivity].
  now destruct (Py.str_contains "pending_user_action" data).
Qed.

Lemma loop_stop E fuel counter s :
  max_cycles <= counter ->
  GetPrivetClaimToken_loop E fuel counter s = Done (Ok false) s.
Proof.
  intros H. apply Nat.ltb_ge in H.
  destruct fuel; simpl; now rewrite H.
Qed.

Lemma loop_pass E fuel counter s :
  counter < max_cycles ->
  GetPrivetClaimToken_loop E (S fuel) counter s
  = match GetPrivetClaimToken_body E counter s with
    | (Ok (Return b), s') => Done (Ok b) s'
    | (Ok (Continue c), s') => GetPrivetClaimToken_loop E fuel c s'
    | (Raise e, s') => Done (Raise e) s'
    end.
Proof.
  intros H. apply Nat.ltb_lt in H. simpl. now rewrite H.
Qed.

Lemma loop_out_of_fuel E counter s :
  counter < max_cycles ->
  GetPrivetClaimToken_loop E 0 counter s = OutOfFuel s.
Proof.
  intros H. apply Nat.ltb_lt in H. simpl. now rewrite H.
Qed.

Lemma St_eta (s : St) : {| dev := dev s; calls := calls s |} = s.
Proof. now destruct s. Qed.

Lemma calls_snoc_repeat (cs : list Call) (c : Call) (n : nat) :
  ((cs ++ [c]) ++ repeat c n)%list = (cs ++ repeat c (S n))%list.
Proof. now rewrite <- app_assoc. Qed.

(** While the device keeps answering [pending_user_action], each pass
    sends one request and raises the counter by one, up to the cap. *)
Lemma loop_pending E s (k : nat) :
  (forall history,
     resp_data (HTTPReq E history (poll_request E (dev s)))
     = Bench.pending_body) ->
  forall counter fuel cs,
    counter + k = max_cycles ->
    let request := HTTP (poll_request E (dev s)) in
    GetPrivetClaimToken_loop E fuel counter {| dev := dev s; calls := cs |}
    = if (k <=? fuel)%nat
      then Done (Ok false)
             {| dev := dev s; calls := (cs ++ repeat request k)%list |}
      else OutOfFuel
             {| dev := dev s; calls := (cs ++ repeat request fuel)%list |}.
Proof.
  intros Hpending. induction k as [| k IH]; intros counter fuel cs Hk request.
  - rewrite loop_stop by lia. simpl. now rewrite app_nil_r.
  - destruct fuel as [| fuel].
    + rewrite loop_out_of_fuel by lia. simpl. now rewrite app_nil_r.
    + rewrite loop_pass by lia. rewrite GetPrivetClaimToken_body_eq.
      cbn [dev calls]. rewrite Hpending.
      change (Py.str_contains "token" Bench.pending_body) with false.
      change (Py.str_contains "error" Bench.pending_body) with true.
      change (Py.str_contains "pending_user_action" Bench.pending_body)
        with true.
      cbv iota. rewrite (IH (counter + 1) fuel) by lia.
      fold request. rewrite !calls_snoc_repeat.
      change (S k <=? S fuel)%nat with (k <=? fuel)%nat. reflexivity.
Qed.

(** C3: against a device that answers every poll with
    [{"error":"pending_user_action"}], [GetPrivetClaimToken] returns
    [False] having sent exactly five requests; after fewer than five
    passes it is still polling. *)
Theorem GetPrivetClaimToken_pending_five E s :
  (forall history,
     resp_data (HTTPReq E history (poll_request E (dev s)))
     = Bench.pending_body) ->
  let request := HTTP (poll_request E (dev s)) in
  (forall fuel, 5 <= fuel ->
     GetPrivetClaimToken E fuel s
     = Done (Ok false)
         {| dev := dev s; calls := (calls s ++ repeat request 5)%list |}) /\
  (forall fuel, fuel < 5 ->
     GetPrivetClaimToken E fuel s
     = OutOfFuel
         {| dev := dev s; calls := (calls s ++ repeat request fuel)%list |}).
Proof.
  intros Hpending request. unfold GetPrivetClaimToken.
  split; intros fuel Hfuel; rewrite <- (St_eta s) at 1;
    rewrite (loop_pending E s 5 Hpending 0 fuel (calls s) eq_refl);
    fold request.
  - apply Nat.leb_le in Hfuel. now rewrite Hfuel.
  - apply Nat.leb_gt in Hfuel. now rewrite Hfuel.
Qed.

(** On the test bench: a server that gives the pending body to every
    request. *)
Lemma GetPrivetClaimToken_pending_five_witness :
  let E := Bench.env (Bench.always Bench.pending_body) Bench.blank_page in
  let s := Bench.fresh E in
  let request := HTTP (poll_request E (dev s)) in
  GetPrivetClaimToken E 5 s
  = Done (Ok false)
      {| dev := dev s; calls := (calls s ++ repeat request 5)%list |}.
Proof.
  intros E s request.
  apply (GetPrivetClaimToken_pending_five E s).
  - intros history. reflexivity.
  - lia.
Defined.

(** C9: the success branch is chosen by a substring test on the raw
    body.  On any pass of the loop, a body that contains the characters
    [token] anywhere makes the method return [True] on that pass, with the
    three claim attributes set to whatever [GetValue] extracts. *)
Theorem GetPrivetClaimToken_token_substring E fuel counter s :
  counter < max_cycles ->
  let request := poll_request E (dev s) in
  let data := resp_data (HTTPReq E (calls s) request) in
  Py.str_contains "token" data = true ->
  GetPrivetClaimToken_loop E (S fuel) counter s
  = Done (Ok true)
      {| dev := set_claim_url (Some (GetValue E data "claim_url"))
                  (set_automated_claim_url
                     (Some (GetValue E data "automated_claim_url"))
                     (set_claim_token (Some (GetValue E data "token"))
                        (dev s)));
         calls := (calls s ++ [HTTP request])%list |}.
Proof.
  intros Hc request data Htoken.
  rewrite loop_pass by exact Hc. rewrite GetPrivetClaimToken_body_eq.
  fold request. fold data. now rewrite Htoken.
Qed.

(** On the test bench: the body [{"error":"token_expired"}] has no field
    named [token], so the claim token becomes [None], and the method
    returns [True] all the same. *)
Lemma GetPrivetClaimToken_token_substring_witness :
  let E := Bench.env (Bench.always Bench.token_expired_body)
             Bench.blank_page in
  let s := Bench.fresh E in
  Json.loads Bench.token_expired_body
  = Some (PDict [(PStr "error", PStr "token_expired")]) /\
  GetPrivetClaimToken E 1 s
  = Done (Ok true)
      {| dev := set_claim_url (Some PNone)
                  (set_automated_claim_url (Some PNone)
                     (set_claim_token (Some PNone) (dev s)));
         calls := (calls s ++ [HTTP (poll_request E (dev s))])%list |}.
Proof.
  intros E s. split; [reflexivity |].
  apply (GetPrivetClaimToken_token_substring E 0 0 s).
  - unfold max_cycles. lia.
  - reflexivity.
Defined.

(** A body with neither [token] nor [error] in it sends the loop round
    again with the counter untouched. *)
Lemma loop_unanswered E s :
  (forall history,
     let data := resp_data (HTTPReq E history (poll_request E (dev s))) in
     Py.str_contains "token" data = false /\
     Py.str_contains "error" data = false) ->
  forall fuel counter cs,
    counter < max_cycles ->
    GetPrivetClaimToken_loop E fuel counter {| dev := dev s; calls := cs |}
    = OutOfFuel
        {| dev := dev s;
           calls := (cs ++ repeat (HTTP (poll_request E (dev s))) fuel)%list |}.
Proof.
  intros Hdata. induction fuel as [| fuel IH]; intros counter cs Hc.
  - rewrite loop_out_of_fuel by exact Hc. simpl. now rewrite app_nil_r.
  - rewrite loop_pass by exact Hc. rewrite GetPrivetClaimToken_body_eq.
    cbn [dev calls]. destruct (Hdata cs) as [Htoken Herror].
    rewrite Htoken, Herror. rewrite IH by exact Hc.
    now rewrite calls_snoc_repeat.
Qed.

(** C1, on the code: against a device that answers every poll with
    [{}], which holds neither [token] nor [error], the counter never
    moves.  Whatever number of passes is allowed, [GetPrivetClaimToken]
    has sent that many requests and is still in its loop: it goes past
    five attempts and never returns. *)
Theorem GetPrivetClaimToken_unanswered_never_returns :
  let E := Bench.env (Bench.always Bench.empty_object_body)
             Bench.blank_page in
  let s := Bench.fresh E in
  forall fuel,
    GetPrivetClaimToken E fuel s
    = OutOfFuel
        {| dev := dev s;
           calls := (calls s
                     ++ repeat (HTTP (poll_request E (dev s))) fuel)%list |}.
Proof.
  intros E s fuel. unfold GetPrivetClaimToken.
  rewrite <- (St_eta s) at 1. apply loop_unanswered.
  - intros history. split; reflexivity.
  - unfold max_cycles. lia.
Qed.

(** The same slip on a run that does end: six empty answers and then a
    token; the method returns [True] on its seventh request. *)
Example GetPrivetClaimToken_seventh_attempt :
  let E := Bench.env
             (Bench.script
                [Bench.empty_object_body;
                 Bench.empty_object_body; Bench.empty_object_body;
                 Bench.empty_object_body; Bench.empty_object_body;
                 Bench.empty_object_body; Bench.empty_object_body;
                 Bench.token_body])
             Bench.blank_page in
  let s := Bench.fresh E in
  exists s',
    GetPrivetClaimToken E 7 s = Done (Ok true) s' /\
    calls s' = (calls s ++ repeat (HTTP (poll_request E (dev s))) 7)%list /\
    claim_token (dev s') = Some (PStr "abc").
Proof.
  eexists. vm_compute. repeat split; reflexivity.
Qed.


(** ** The CDD parser *)

(** The part of C7 the code keeps: with no device info at all,
    [ParseCDD] returns [False] and touches nothing. *)
Lemma ParseCDD_empty E s :
  Py.truthy (info (dev s)) = false -> ParseCDD E s = (Ok false, s).
Proof.
  intros H. unfold ParseCDD, bind, self. now rewrite H.
Qed.

Lemma ParseCDD_loaded E s text doc :
  info (dev s) = PStr text -> text <> "" ->
  json_loads E text = Some doc ->
  ParseCDD E s
  = (has_printers <- lift (Py.contains_str "printers" doc) ;;
     if has_printers : bool then
       p <- first_printer doc ;;
       keys <- lift (Py.iter p) ;;
       for_each keys (fun k =>
         if Py.key_eqb k (PStr "capabilities")
         then cdd_store (PStr "caps") (PDict [])
         else
           p <- first_printer doc ;;
           v <- lift (Py.getitem p k) ;;
           cdd_store k v) ;;
       caps <- printer_caps doc ;;
       keys <- lift (Py.iter caps) ;;
       for_each keys (fun k =>
         caps <- printer_caps doc ;;
         v <- lift (Py.getitem caps k) ;;
         caps_store k v) ;;
       ret true
     else ret false) s.
Proof.
  intros Hinfo Htext Hdoc.
  unfold ParseCDD. unfold bind at 1. unfold self at 1. rewrite Hinfo.
  apply String.eqb_neq in Htext. cbn [Py.truthy]. rewrite Htext. cbn [negb].
  unfold bind at 1. unfold loads. rewrite Hdoc. reflexivity.
Qed.

(** The part of C7 the code keeps: a document without a ["printers"]
    key makes [ParseCDD] return [False] and touch nothing. *)
Lemma ParseCDD_no_printers E s text d :
  info (dev s) = PStr text -> text <> "" ->
  json_loads E text = Some (PDict d) ->
  Py.dict_get d (PStr "printers") = None ->
  ParseCDD E s = (Ok false, s).
Proof.
  intros Hinfo Htext Hdoc Hp.
  rewrite (ParseCDD_loaded E s text (PDict d) Hinfo Htext Hdoc).
  unfold bind, lift. simpl. now rewrite Hp.
Qed.

(** C10: a document whose ["printers"] key maps to an empty list passes
    the membership test, and the subscript [cdd['printers'][0]] then
    raises [IndexError]; [ParseCDD] does not return [False] on it. *)
Theorem ParseCDD_empty_printers E s text d :
  info (dev s) = PStr text -> text <> "" ->
  json_loads E text = Some (PDict d) ->
  Py.dict_get d (PStr "printers") = Some (PList []) ->
  ParseCDD E s = (Raise IndexError, s).
Proof.
  intros Hinfo Htext Hdoc Hp.
  rewrite (ParseCDD_loaded E s text (PDict d) Hinfo Htext Hdoc).
  unfold bind at 1. unfold lift at 1. simpl. rewrite Hp.
  unfold bind at 1. unfold first_printer. unfold bind at 1. unfold lift at 1.
  simpl. rewrite Hp. reflexivity.
Qed.

(** On the test bench: the document [{"printers":[]}]. *)
Lemma ParseCDD_empty_printers_witness :
  let E := Bench.env (Bench.always Bench.empty_object_body) Bench.blank_page in
  let s := Bench.with_info Bench.no_printer_records_doc (Bench.fresh E) in
  ParseCDD E s = (Raise IndexError, s).
Proof.
  intros E s.
  apply (ParseCDD_empty_printers E s Bench.no_printer_records_doc
           [(PStr "printers", PList [])]).
  - reflexivity.
  - discriminate.
  - reflexivity.
  - reflexivity.
Defined.

(** C7, on the code: on the document [{"printers":[{"name":"X"}]}],
    whose first printer record has no ["capabilities"] key, [ParseCDD]
    first copies [name] into [self.cdd] and then raises [KeyError] where
    the claim has it return [False] with nothing set. *)
Theorem ParseCDD_no_capabilities_raises :
  let E := Bench.env (Bench.always Bench.empty_object_body) Bench.blank_page in
  let s := Bench.with_info Bench.no_capabilities_doc (Bench.fresh E) in
  Json.loads Bench.no_capabilities_doc
  = Some (PDict [(PStr "printers", PList [PDict [(PStr "name", PStr "X")]])]) /\
  cdd (dev s) = PDict [] /\
  ParseCDD E s
  = (Raise (KeyError (PStr "capabilities")),
     {| dev := set_cdd (PDict [(PStr "name", PStr "X")]) (dev s);
        calls := calls s |}).
Proof.
  vm_compute. repeat split; reflexivity.
Qed.

(** The two failure inputs that are handled, and the good document of
    the spec, on the test bench. *)
Example ParseCDD_bench :
  let E := Bench.env (Bench.always Bench.empty_object_body) Bench.blank_page in
  let s := Bench.fresh E in
  ParseCDD E s = (Ok false, s) /\
  ParseCDD E (Bench.with_info "" s) = (Ok false, Bench.with_info "" s) /\
  ParseCDD E (Bench.with_info Bench.no_printers_doc s)
  = (Ok false, Bench.with_info Bench.no_printers_doc s) /\
  ParseCDD E (Bench.with_info Bench.full_doc s)
  = (Ok true,
     {| dev := set_cdd
                 (PDict [(PStr "name", PStr "X");
                         (PStr "caps", PDict [(PStr "color", PStr "rgb")])])
                 (dev (Bench.with_info Bench.full_doc s));
        calls := calls s |}).
Proof.
  vm_compute. repeat split; reflexivity.
Qed.

(** ** The status refresh *)

Lemma fetches_app g (a b : list Call) :
  fetches g (a ++ b) = fetches g a + fetches g b.
Proof. unfold fetches. now rewrite filter_app, length_app. Qed.

Lemma range_RETRY_COUNT : Py.range (-1) RETRY_COUNT = [-1; 0; 1; 2]%Z.
Proof. reflexivity. Qed.

(** A guarded fetch in front of the rest of a pass. *)
Lemma refresh_then E g (k : M unit) s :
  (v <- self (field g) ;;
   (if negb (Py.truthy v)
    then x <- mgr E g ;; assign (set_field g x)
    else ret tt) ;;
   k) s
  = k (refreshed E g s).
Proof.
  unfold bind at 1. unfold self. unfold refreshed.
  destruct (Py.truthy (field g (dev s))); reflexivity.
Qed.

Lemma refresh_eq E g s : refresh E g s = (Ok tt, refreshed E g s).
Proof.
  unfold refresh, bind, self, refreshed.
  destruct (Py.truthy (field g (dev s))); reflexivity.
Qed.

(** A pass is the five guarded fetches in the order of the source. *)
Lemma GetDeviceDetails_pass_eq E s :
  GetDeviceDetails_pass E s
  = (Ok tt,
     refreshed E GetPrinterDetails
       (refreshed E GetPrinterStateMessages
          (refreshed E GetPrinterState
             (refreshed E GetPrinterWarningState
                (refreshed E GetPrinterErrorState
                   {| dev := set_cd_page_id PNone (dev s);
                      calls := calls s |}))))).
Proof.
  unfold GetDeviceDetails_pass. unfold bind at 1. unfold assign at 1.
  rewrite (refresh_then E GetPrinterErrorState).
  rewrite (refresh_then E GetPrinterWarningState).
  rewrite (refresh_then E GetPrinterState).
  rewrite (refresh_then E GetPrinterStateMessages).
  apply (refresh_eq E GetPrinterDetails).
Qed.

Lemma Getter_eqb_eq a b : Getter_eqb a b = true <-> a = b.
Proof. destruct a, b; simpl; split; congruence. Qed.

Lemma field_set_field g g' v d :
  field g' (set_field g v d) = if Getter_eqb g g' then v else field g' d.
Proof. destruct g, g'; reflexivity. Qed.

Lemma refreshed_fetches E g g' s :
  fetches g' (calls (refreshed E g s))
  = fetches g' (calls s)
    + (if Getter_eqb g g' && negb (Py.truthy (field g (dev s)))
       then 1 else 0).
Proof.
  unfold refreshed. destruct (Py.truthy (field g (dev s))).
  - rewrite andb_false_r. lia.
  - cbn [calls]. rewrite fetches_app, andb_true_r. unfold fetches at 3.
    simpl. destruct g, g'; reflexivity.
Qed.

Lemma refreshed_field_other E g g' s :
  Getter_eqb g g' = false ->
  field g' (dev (refreshed E g s)) = field g' (dev s).
Proof.
  intros H. unfold refreshed. destruct (Py.truthy (field g (dev s))).
  - reflexivity.
  - cbn [dev]. now rewrite field_set_field, H.
Qed.

Lemma refreshed_field_populated E g g' s :
  Py.truthy (field g' (dev s)) = true ->
  field g' (dev (refreshed E g s)) = field g' (dev s).
Proof.
  intros H. destruct (Getter_eqb g g') eqn:Hg.
  - apply Getter_eqb_eq in Hg. subst g'. unfold refreshed. now rewrite H.
  - now apply refreshed_field_other.
Qed.

Lemma refreshed_keeps_populated E g g' s :
  Py.truthy (field g' (dev s)) = true ->
  Py.truthy (field g' (dev (refreshed E g s))) = true /\
  field g' (dev (refreshed E g s)) = field g' (dev s).
Proof.
  intros H. rewrite (refreshed_field_populated E g g' s H). now split.
Qed.

(** One pass: it ends normally; each reader is called once if its field
    is empty and not at all if the field is populated, and a populated
    field keeps its value. *)
Lemma GetDeviceDetails_pass_spec E s :
  let r := GetDeviceDetails_pass E s in
  fst r = Ok tt /\
  forall g,
    fetches g (calls (snd r))
    = fetches g (calls s) + (if Py.truthy (field g (dev s)) then 0 else 1) /\
    (Py.truthy (field g (dev s)) = true ->
     field g (dev (snd r)) = field g (dev s)).
Proof.
  rewrite GetDeviceDetails_pass_eq. cbn [fst snd]. split; [reflexivity |].
  intros g. split.
  - rewrite !refreshed_fetches.
    rewrite !refreshed_field_other by reflexivity.
    destruct g; simpl;
      match goal with
      | |- context [Py.truthy ?v] => destruct (Py.truthy v)
      end; simpl; lia.
  - intros H.
    set (s0 := {| dev := set_cd_page_id PNone (dev s); calls := calls s |}).
    assert (H0 : field g (dev s0) = field g (dev s)) by now destruct g.
    rewrite <- H0 in H.
    destruct (refreshed_keeps_populated E GetPrinterErrorState g _ H)
      as [H1 E1].
    destruct (refreshed_keeps_populated E GetPrinterWarningState g _ H1)
      as [H2 E2].
    destruct (refreshed_keeps_populated E GetPrinterState g _ H2)
      as [H3 E3].
    destruct (refreshed_keeps_populated E GetPrinterStateMessages g _ H3)
      as [H4 E4].
    destruct (refreshed_keeps_populated E GetPrinterDetails g _ H4)
      as [_ E5].
    now rewrite E5, E4, E3, E2, E1.
Qed.

(** Passes in a row, one per item of [xs]. *)
Lemma GetDeviceDetails_passes_spec E (xs : list Z) : forall s,
  let r := for_each xs (fun _ => GetDeviceDetails_pass E) s in
  fst r = Ok tt /\
  forall g, exists k,
    fetches g (calls (snd r)) = fetches g (calls s) + k /\
    k <= List.length xs /\
    (Py.truthy (field g (dev s)) = true ->
     k = 0 /\ field g (dev (snd r)) = field g (dev s)) /\
    (Py.truthy (field g (dev (snd r))) = false ->
     Py.truthy (field g (dev s)) = false /\ k = List.length xs).
Proof.
  induction xs as [| x xs IH]; intros s; cbn [for_each].
  - split; [reflexivity |]. intros g. exists 0. cbn.
    repeat split; try lia; try assumption.
  - destruct (GetDeviceDetails_pass_spec E s) as [Hok Hpass].
    unfold bind.
    destruct (GetDeviceDetails_pass E s) as [[[] | e] s1]; [| discriminate].
    cbn [fst snd] in Hpass.
    destruct (IH s1) as [Hok' Hrest]. split; [exact Hok' |].
    intros g. destruct (Hpass g) as [Hn Hkeep].
    destruct (Hrest g) as (k & Hk & Hle & Htrue & Hfalse).
    destruct (Py.truthy (field g (dev s))) eqn:Hg.
    + specialize (Hkeep eq_refl). rewrite Hkeep in Htrue.
      destruct (Htrue Hg) as [-> Hsame].
      exists 0. cbn [List.length].
      split; [lia |]. split; [lia |]. split.
      * intros _. split; [reflexivity | exact Hsame].
      * intros Hend. rewrite Hsame, Hg in Hend. discriminate.
    + exists (S k). cbn [List.length].
      split; [lia |]. split; [lia |]. split.
      * discriminate.
      * intros Hend. apply Hfalse in Hend. split; [reflexivity | lia].
Qed.




(** The method is the five resets followed by four passes. *)
Lemma GetDeviceDetails_eq E s :
  GetDeviceDetails E s
  = for_each [-1; 0; 1; 2]%Z (fun _ => GetDeviceDetails_pass E)
      {| dev := set_details PNone
                  (set_messages PNone
                     (set_status PNone
                        (set_warning_state PNone
                           (set_error_state PNone (dev s)))));
         calls := calls s |}.
Proof. reflexivity. Qed.












(** The run in front of the slow management page, reader by reader:
    the falsy error and warning states and the empty details are asked
    for in every pass, the printer state until it is there, the messages
    once. *)
Example GetDeviceDetails_slow_page :
  let E := Bench.env (Bench.always Bench.empty_object_body) Bench.slow_page in
  let r := GetDeviceDetails E (Bench.fresh E) in
  map (fun g => fetches g (calls (snd r)))
      [GetPrinterErrorState; GetPrinterWarningState; GetPrinterState;
       GetPrinterStateMessages; GetPrinterDetails]
  = [4; 4; 2; 1; 4] /\
  status (dev (snd r)) = PStr "ONLINE" /\
  details (dev (snd r)) = PDict [].
Proof. vm_compute. repeat split; reflexivity. Qed.

(** ** Where the registration attributes come from *)

(** Unfolds a method down to binds, branches and assignments and
    checks that no assignment touches the property [P]. *)
Ltac keeps_method :=
  unfold GetDeviceDetails, GetDeviceDetails_pass, ParseCDD, loads,
    printer_caps, first_printer, caps_store, cdd_store, CancelRegistration,
    StartPrivetRegister, SendClaimToken, FinishPrivetRegister, UnRegister;
  repeat keeps_step; try assumption.

(** X27: no method other than [GetPrivetClaimToken] creates
    [self.claim_token]; each of the others leaves it missing if it was
    missing. *)
Lemma claim_token_not_created E auth_token :
  let P := fun d => claim_token d = None in
  keeps P (GetPrivetInfo E) /\ keeps P (GetDeviceDetails E) /\
  keeps P (ParseCDD E) /\ keeps P (CancelRegistration E) /\
  keeps P (StartPrivetRegister E) /\ keeps P (SendClaimToken E auth_token) /\
  keeps P (FinishPrivetRegister E) /\ keeps P (UnRegister E auth_token).
Proof.
  intros P. unfold GetPrivetInfo. repeat split; keeps_method.
Qed.

(** X26: [GetPrivetClaimToken] itself creates [self.claim_token] only
    when it returns [True]; a poll that ends any other way leaves the
    attribute missing. *)
Lemma claim_token_created_on_success E fuel : forall counter s r s',
  claim_token (dev s) = None ->
  GetPrivetClaimToken_loop E fuel counter s = Done r s' ->
  r <> Ok true ->
  claim_token (dev s') = None.
Proof.
  induction fuel as [| fuel IH]; intros counter s r s' Hnone Hrun Hr.
  - destruct (Nat.ltb_spec counter max_cycles) as [Hc | Hc].
    + rewrite loop_out_of_fuel in Hrun by exact Hc. discriminate.
    + rewrite loop_stop in Hrun by exact Hc. now inversion Hrun; subst.
  - destruct (Nat.ltb_spec counter max_cycles) as [Hc | Hc].
    + rewrite loop_pass in Hrun by exact Hc.
      rewrite GetPrivetClaimToken_body_eq in Hrun. cbv zeta in Hrun.
      destruct (Py.str_contains "token" _).
      * inversion Hrun; subst. contradiction.
      * destruct (Py.str_contains "error" _);
          [destruct (Py.str_contains "pending_user_action" _) |].
        -- now apply IH in Hrun.
        -- now inversion Hrun; subst.
        -- now apply IH in Hrun.
    + rewrite loop_stop in Hrun by exact Hc. now inversion Hrun; subst.
Qed.

(** No method other than [FinishPrivetRegister] creates [self.id]. *)
Lemma id_not_created E auth_token :
  let P := fun d => id d = None in
  keeps P (GetPrivetInfo E) /\ keeps P (GetDeviceDetails E) /\
  keeps P (ParseCDD E) /\ keeps P (CancelRegistration E) /\
  keeps P (StartPrivetRegister E) /\ keeps P (SendClaimToken E auth_token) /\
  keeps P (UnRegister E auth_token).
Proof.
  intros P. unfold GetPrivetInfo.
  do 6 (split; [keeps_method |]).
  intros s H. unfold UnRegister, bind, self_opt.
  change (id (dev s) = None) in H. now rewrite H.
Qed.

(** ** A printer record without capabilities *)

Lemma first_printer_head d r rest s :
  Py.dict_get d (PStr "printers") = Some (PList (r :: rest)) ->
  first_printer (PDict d) s = (Ok r, s).
Proof.
  intros H. unfold first_printer, bind, lift. simpl. now rewrite H.
Qed.

(** The first loop of [ParseCDD] over a record that has no
    ["capabilities"] key: every key is copied, nothing raises. *)
Lemma copy_printer_fields d rec rest (keys : list pyval) :
  Py.dict_get d (PStr "printers") = Some (PList (PDict rec :: rest)) ->
  Py.dict_get rec (PStr "capabilities") = None ->
  (forall k, In k keys -> is_PStr k = true /\ Py.dict_get rec k <> None) ->
  forall s c,
    cdd (dev s) = PDict c ->
    exists s',
      for_each keys (fun k =>
        if Py.key_eqb k (PStr "capabilities")
        then cdd_store (PStr "caps") (PDict [])
        else
          p <- first_printer (PDict d) ;;
          v <- lift (Py.getitem p k) ;;
          cdd_store k v) s
      = (Ok tt, s').
Proof.
  intros Hp Hcaps. induction keys as [| k keys IH]; intros Hkeys s c Hc.
  - exists s. reflexivity.
  - destruct (Hkeys k (or_introl eq_refl)) as [Hstr Hget].
    destruct k as [| | | k | |]; try discriminate.
    cbn [for_each]. unfold bind at 1.
    assert (Hk : Py.key_eqb (PStr k) (PStr "capabilities") = false).
    { simpl. destruct (String.eqb_spec k "capabilities") as [-> |];
        [contradiction | reflexivity]. }
    rewrite Hk. unfold bind at 1. rewrite (first_printer_head d _ rest s Hp).
    unfold bind at 1. unfold lift at 1. simpl.
    destruct (Py.dict_get rec (PStr k)) as [v |]; [| contradiction].
    unfold cdd_store, bind, self, lift, assign. rewrite Hc. simpl.
    eapply IH.
    + intros k' Hin. apply Hkeys. now right.
    + reflexivity.
Qed.

(** X28: a printer record without capabilities, in every environment.
    When the first printer record is a dictionary with string keys and no
    ["capabilities"] among them, [ParseCDD] raises [KeyError]. *)
Lemma ParseCDD_no_capabilities E s text d rec rest c :
  info (dev s) = PStr text -> text <> "" ->
  json_loads E text = Some (PDict d) ->
  Py.dict_get d (PStr "printers") = Some (PList (PDict rec :: rest)) ->
  forallb is_PStr (map fst rec) = true ->
  Py.dict_get rec (PStr "capabilities") = None ->
  cdd (dev s) = PDict c ->
  fst (ParseCDD E s) = Raise (KeyError (PStr "capabilities")).
Proof.
  intros Hinfo Htext Hdoc Hp Hkeys Hcaps Hc.
  rewrite (ParseCDD_loaded E s text (PDict d) Hinfo Htext Hdoc).
  unfold bind at 1. unfold lift at 1. simpl. rewrite Hp.
  unfold bind at 1. rewrite (first_printer_head d _ rest s Hp).
  unfold bind at 1. unfold lift at 1. cbn [Py.iter].
  unfold bind at 1.
  match goal with
  | |- context [for_each ?ks ?body ?s1] =>
      destruct (copy_printer_fields d rec rest ks Hp Hcaps) with (s := s1) (c := c)
        as [s' Hloop]
  end.
  - intros k Hin. rewrite forallb_forall in Hkeys.
    split; [now apply Hkeys | apply dict_get_In; [exact Hin | now apply Hkeys]].
  - exact Hc.
  - simpl in Hloop. rewrite Hloop.
    unfold bind at 1. unfold printer_caps. unfold bind at 1.
    rewrite (first_printer_head d _ rest s' Hp).
    unfold bind at 1. unfold lift at 1. simpl. now rewrite Hcaps.
Qed.

(** ** Dictionaries *)

Lemma key_eqb_sym a b : Py.key_eqb a b = Py.key_eqb b a.
Proof.
  destruct a as [| [] | x | x | |], b as [| [] | y | y | |];
    cbn [Py.key_eqb Py.as_index];
    try reflexivity; try apply Z.eqb_sym; apply String.eqb_sym.
Qed.

Lemma key_eqb_trans a b c :
  Py.key_eqb a b = true -> Py.key_eqb b c = true -> Py.key_eqb a c = true.
Proof.
  destruct a as [| [] | x | x | |], b as [| [] | y | y | |],
           c as [| [] | z | z | |]; cbn [Py.key_eqb Py.as_index];
    intros H1 H2; try discriminate; try reflexivity;
    rewrite ?Z.eqb_eq, ?String.eqb_eq in *; congruence.
Qed.

(** Looking up after an assignment. *)
Lemma dict_get_set d k v k' :
  Py.dict_get (Py.dict_set d k v) k'
  = if Py.key_eqb k k' then Some v else Py.dict_get d k'.
Proof.
  induction d as [| [k0 v0] d IH]; simpl; [reflexivity |].
  destruct (Py.key_eqb k0 k) eqn:H0; simpl.
  - destruct (Py.key_eqb k k') eqn:H1.
    + now rewrite (key_eqb_trans k0 k k' H0 H1).
    + destruct (Py.key_eqb k0 k') eqn:H2; [| reflexivity].
      rewrite key_eqb_sym in H0.
      now rewrite (key_eqb_trans k k0 k' H0 H2) in H1.
  - rewrite IH. destruct (Py.key_eqb k0 k') eqn:H2; [| reflexivity].
    destruct (Py.key_eqb k k') eqn:H1; [| reflexivity].
    rewrite key_eqb_sym in H1.
    now rewrite (key_eqb_trans k0 k' k H2 H1) in H0.
Qed.

Lemma dict_get_set_present d k v k' :
  Py.dict_get d k' <> None -> Py.dict_get (Py.dict_set d k v) k' <> None.
Proof.
  intros H. rewrite dict_get_set. now destruct (Py.key_eqb k k').
Qed.

Lemma dict_get_not_In d k :
  ~ In (PStr k) (map fst d) -> forallb is_PStr (map fst d) = true ->
  Py.dict_get d (PStr k) = None.
Proof.
  induction d as [| [k0 v0] d IH]; simpl; intros Hin Hstr; [reflexivity |].
  apply andb_prop in Hstr. destruct Hstr as [H0 Hstr].
  destruct k0 as [| | | k0 | |]; try discriminate. simpl.
  destruct (String.eqb_spec k0 k) as [-> | Hne].
  - exfalso. apply Hin. now left.
  - apply IH; [| exact Hstr]. intros H. apply Hin. now right.
Qed.

Lemma Device_eta_cdd d : set_cdd (cdd d) d = d.
Proof. now destruct d. Qed.

Lemma Device_eta_privet_info d : set_privet_info (privet_info d) d = d.
Proof. now destruct d. Qed.

Lemma dict_get_eqb d k k' :
  Py.key_eqb k k' = true -> Py.dict_get d k = Py.dict_get d k'.
Proof.
  intros H. induction d as [| [k0 v0] d IH]; simpl; [reflexivity |].
  rewrite IH. destruct (Py.key_eqb k0 k) eqn:H0.
  - now rewrite (key_eqb_trans k0 k k' H0 H).
  - destruct (Py.key_eqb k0 k') eqn:H1; [| reflexivity].
    rewrite key_eqb_sym in H.
    now rewrite (key_eqb_trans k0 k' k H1 H) in H0.
Qed.

Lemma dict_get_no_key d k :
  existsb (fun k0 => Py.key_eqb k0 k) (map fst d) = false ->
  Py.dict_get d k = None.
Proof.
  induction d as [| [k0 v0] d IH]; simpl; [reflexivity |].
  intros H. apply orb_false_elim in H. destruct H as [H0 H].
  rewrite H0. now apply IH.
Qed.

Lemma getitem_dict_str d k :
  Py.getitem (PDict d) (PStr k)
  = match Py.dict_get d (PStr k) with
    | Some x => Ok x
    | None => Raise (KeyError (PStr k))
    end.
Proof. reflexivity. Qed.

(** ** The info request *)

(** The loop of [GetPrivetInfo]: every key of the parsed answer is
    copied into [self.privet_info] with its value. *)
Lemma copy_info_fields (parsed : list (pyval * pyval)) (keys : list pyval) :
  (forall k, In k keys -> is_PStr k = true /\ Py.dict_get parsed k <> None) ->
  forall d0 cs p,
  exists p',
    for_each keys (fun key =>
      v <- lift (Py.getitem (PDict parsed) key) ;;
      p <- self privet_info ;;
      p' <- lift (Py.setitem p key v) ;;
      assign (set_privet_info p'))
      {| dev := set_privet_info (PDict p) d0; calls := cs |}
    = (Ok tt, {| dev := set_privet_info (PDict p') d0; calls := cs |}) /\
    forall k',
      Py.dict_get p' k'
      = if existsb (fun k => Py.key_eqb k k') keys
        then Py.dict_get parsed k' else Py.dict_get p k'.
Proof.
  induction keys as [| k keys IH]; intros Hkeys d0 cs p.
  - exists p. split; reflexivity.
  - destruct (Hkeys k (or_introl eq_refl)) as [Hstr Hget].
    destruct k as [| | | a | |]; try discriminate.
    destruct (Py.dict_get parsed (PStr a)) as [v |] eqn:Hv; [| contradiction].
    destruct (IH (fun k' H => Hkeys k' (or_intror H)) d0 cs
                 (Py.dict_set p (PStr a) v)) as (p' & Hrun & Hp').
    exists p'. split.
    + cbn [for_each]. unfold bind at 1. unfold bind at 1. unfold lift at 1.
      cbn [Py.getitem Py.hashable]. rewrite Hv.
      unfold bind, self, lift, assign. cbn [dev calls privet_info].
      cbn [Py.setitem Py.hashable]. exact Hrun.
    + intros k'. rewrite Hp'. cbn [existsb]. rewrite dict_get_set.
      destruct (existsb (fun k => Py.key_eqb k k') keys).
      * now rewrite orb_true_r.
      * rewrite orb_false_r. destruct (Py.key_eqb (PStr a) k') eqn:Hk;
          [| reflexivity].
        now rewrite <- (dict_get_eqb parsed (PStr a) k' Hk).
Qed.

(** What [GetPrivetInfo] leaves when the answer reads as JSON. *)
Lemma GetPrivetInfo_json E s j :
  let request := info_request E (dev s) in
  let parsed := Read E (resp_data (HTTPReq E (calls s) request)) in
  Py.dict_get parsed (PStr "json") = Some j -> Py.truthy j = true ->
  forallb is_PStr (map fst parsed) = true ->
  exists p,
    (forall k, Py.dict_get p k = Py.dict_get parsed k) /\
    GetPrivetInfo E s
    = (Ok tt,
       {| dev :=
            match Py.dict_get parsed (PStr "x-privet-token") with
            | Some t =>
                set_headers (PDict [(PStr "X-Privet-Token", PStr (str_of E t))])
                  (set_privet_info (PDict p) (dev s))
            | None => set_privet_info (PDict p) (dev s)
            end;
          calls := (calls s ++ [HTTP request])%list |}).
Proof.
  intros request parsed Hj Hjt Hkeys.
  destruct (copy_info_fields parsed (map fst parsed)) with
    (d0 := dev s) (cs := (calls s ++ [HTTP request])%list)
    (p := @nil (pyval * pyval)) as (p & Hrun & Hp).
  { intros k Hin. rewrite forallb_forall in Hkeys.
    split; [now apply Hkeys | apply dict_get_In; [exact Hin | now apply Hkeys]]. }
  exists p. split.
  - intros k. rewrite Hp.
    destruct (existsb (fun k0 => Py.key_eqb k0 k) (map fst parsed)) eqn:Hex;
      [reflexivity |].
    simpl. symmetry. now apply dict_get_no_key.
  - unfold GetPrivetInfo.
    unfold bind at 1. unfold assign at 1.
    unfold bind at 1. unfold self at 1.
    unfold bind at 1. unfold http at 1. cbn [dev calls privet_url].
    change (privet_url (set_privet_info (PDict []) (dev s)))
      with (privet_url (dev s)).
    fold (info_request E (dev s)). fold request. fold parsed.
    unfold bind at 1. unfold lift at 1. rewrite getitem_dict_str.
    rewrite Hj, Hjt.
    unfold bind at 1. unfold lift at 1. cbn [Py.iter].
    unfold bind at 1. rewrite Hrun.
    unfold bind at 1. unfold lift at 1. cbn [Py.contains_str].
    destruct (Py.dict_get parsed (PStr "x-privet-token")) as [t |] eqn:Ht.
    + unfold bind, lift, assign. rewrite getitem_dict_str, Ht.
      reflexivity.
    + reflexivity.
Qed.

(** X1: when the answer to the info request reads as JSON with string
    keys, [GetPrivetInfo] ends normally after that one request, and the
    session header is [str] of the entry ['x-privet-token'] if the answer
    has one and is left as it was if it has none. *)
Theorem GetPrivetInfo_adopts_token E s j :
  let request := info_request E (dev s) in
  let parsed := Read E (resp_data (HTTPReq E (calls s) request)) in
  Py.dict_get parsed (PStr "json") = Some j -> Py.truthy j = true ->
  forallb is_PStr (map fst parsed) = true ->
  let r := GetPrivetInfo E s in
  fst r = Ok tt /\
  calls (snd r) = (calls s ++ [HTTP request])%list /\
  headers (dev (snd r))
  = match Py.dict_get parsed (PStr "x-privet-token") with
    | Some t => PDict [(PStr "X-Privet-Token", PStr (str_of E t))]
    | None => headers (dev s)
    end.
Proof.
  intros request parsed Hj Hjt Hkeys r. subst r.
  destruct (GetPrivetInfo_json E s j Hj Hjt Hkeys) as (p & _ & Hrun).
  fold request parsed in Hrun. rewrite Hrun. cbn [fst snd dev calls].
  repeat split.
  now destruct (Py.dict_get parsed (PStr "x-privet-token")).
Qed.

Lemma GetPrivetInfo_adopts_token_witness :
  let E := Bench.env (Bench.always Lab.info_token_body) Bench.blank_page in
  let r := GetPrivetInfo E (Bench.fresh E) in
  fst r = Ok tt /\
  calls (snd r)
  = (calls (Bench.fresh E)
     ++ [HTTP (info_request E (dev (Bench.fresh E)))])%list /\
  headers (dev (snd r)) = PDict [(PStr "X-Privet-Token", PStr "tok-123")].
Proof.
  intros E r.
  apply (GetPrivetInfo_adopts_token E (Bench.fresh E) (PBool true));
    reflexivity.
Defined.

(** X2: under the same conditions [self.privet_info] ends up answering
    every lookup as the parsed answer does: each field of the answer was
    copied, and nothing else is in it. *)
Theorem GetPrivetInfo_copies_fields E s j :
  let request := info_request E (dev s) in
  let parsed := Read E (resp_data (HTTPReq E (calls s) request)) in
  Py.dict_get parsed (PStr "json") = Some j -> Py.truthy j = true ->
  forallb is_PStr (map fst parsed) = true ->
  exists p,
    privet_info (dev (snd (GetPrivetInfo E s))) = PDict p /\
    forall k, Py.dict_get p k = Py.dict_get parsed k.
Proof.
  intros request parsed Hj Hjt Hkeys.
  destruct (GetPrivetInfo_json E s j Hj Hjt Hkeys) as (p & Hp & Hrun).
  fold request parsed in Hrun. rewrite Hrun. exists p. split; [| exact Hp].
  cbn [snd dev]. now destruct (Py.dict_get parsed (PStr "x-privet-token")).
Qed.

Lemma GetPrivetInfo_copies_fields_witness :
  let E := Bench.env (Bench.always Lab.info_token_body) Bench.blank_page in
  exists p,
    privet_info (dev (snd (GetPrivetInfo E (Bench.fresh E)))) = PDict p /\
    forall k,
      Py.dict_get p k
      = Py.dict_get [(PStr "x-privet-token", PStr "tok-123");
                     (PStr "name", PStr "LogoJet");
                     (PStr "json", PBool true)] k.
Proof.
  intros E.
  apply (GetPrivetInfo_copies_fields E (Bench.fresh E) (PBool true));
    reflexivity.
Defined.

(** Reading every header of a dictionary of headers raises nothing
    and changes nothing. *)
Lemma read_headers (hd : list (pyval * pyval)) (keys : list pyval) :
  (forall k, In k keys -> is_PStr k = true /\ Py.dict_get hd k <> None) ->
  forall s,
    for_each keys (fun key =>
      _ <- lift (Py.getitem (PDict hd) key) ;;
      ret tt) s
    = (Ok tt, s).
Proof.
  induction keys as [| k keys IH]; intros Hkeys s; [reflexivity |].
  destruct (Hkeys k (or_introl eq_refl)) as [Hstr Hget].
  destruct k as [| | | a | |]; try discriminate.
  cbn [for_each]. unfold bind at 1. unfold bind at 1. unfold lift at 1.
  rewrite getitem_dict_str.
  destruct (Py.dict_get hd (PStr a)) as [v |]; [| contradiction].
  unfold ret at 1. apply IH. intros k' Hin. apply Hkeys. now right.
Qed.

Lemma GetPrivetInfo_not_json E s j :
  let request := info_request E (dev s) in
  let response := HTTPReq E (calls s) request in
  let parsed := Read E (resp_data response) in
  Py.dict_get parsed (PStr "json") = Some j -> Py.truthy j = false ->
  header_mapping (resp_headers response) = true ->
  GetPrivetInfo E s
  = (Ok tt, {| dev := set_privet_info (PDict []) (dev s);
               calls := (calls s ++ [HTTP request])%list |}).
Proof.
  intros request response parsed Hj Hjt Hheaders.
  unfold GetPrivetInfo.
  unfold bind at 1. unfold assign at 1.
  unfold bind at 1. unfold self at 1.
  unfold bind at 1. unfold http at 1. cbn [dev calls].
  change (privet_url (set_privet_info (PDict []) (dev s)))
    with (privet_url (dev s)).
  fold (info_request E (dev s)). fold request. fold response. fold parsed.
  unfold bind at 1. unfold lift at 1. rewrite getitem_dict_str.
  rewrite Hj, Hjt. cbv zeta.
  destruct (resp_headers response) as [| hb | hz | hs | hl | hd] eqn:Hh;
    cbn [header_mapping] in Hheaders;
    try (apply negb_true_iff in Hheaders; rewrite Hheaders; reflexivity).
  destruct (Py.truthy (PDict hd)); [| reflexivity].
  unfold bind at 1. unfold lift at 1. cbn [Py.iter].
  apply read_headers. intros k Hin. rewrite forallb_forall in Hheaders.
  split; [now apply Hheaders | apply dict_get_In; [exact Hin | now apply Hheaders]].
Qed.

(** With something in place of the headers that cannot be iterated,
    the same branch raises. *)
Example GetPrivetInfo_odd_headers :
  let E := Bench.env Lab.odd_headers_server Bench.blank_page in
  fst (init E PNone PNone PNone) = Raise TypeError.
Proof. vm_compute. reflexivity. Qed.

Lemma GetPrivetInfo_keeps_privet_url E u :
  keeps (fun d => privet_url d = u) (GetPrivetInfo E).
Proof.
  unfold GetPrivetInfo. repeat keeps_step; assumption.
Qed.

(** X3: construction does not fail on a device whose info answer is
    not JSON, as long as the response headers are what a transport hands
    over: nothing, or a dictionary from names to values.  [__init__] then
    ends normally having sent the one info request; the session header
    stays [None], [privet_info] is empty and the registration attributes
    are missing. *)
Theorem init_without_json E chromedriver model privet_port j :
  let r := init E chromedriver model privet_port in
  let request := info_request E (dev (snd r)) in
  let response := HTTPReq E [] request in
  Py.dict_get (Read E (resp_data response)) (PStr "json") = Some j ->
  Py.truthy j = false ->
  header_mapping (resp_headers response) = true ->
  fst r = Ok tt /\
  calls (snd r) = [HTTP request] /\
  headers (dev (snd r)) = PNone /\
  privet_info (dev (snd r)) = PDict [] /\
  unregistered (dev (snd r)).
Proof.
  intros r request response Hj Hjt Hheaders.
  pose proof (init_unregistered E chromedriver model privet_port) as Hunreg.
  fold r in Hunreg.
  assert (Hurl : privet_url (dev (snd r))
                 = SetPrivetUrls E (PRINTER_IP E)
                     (if Py.truthy privet_port then privet_port
                      else PRINTER_PORT E)).
  { unfold r, init.
    match goal with
    | |- privet_url (dev (snd (GetPrivetInfo E ?s0))) = ?u =>
        apply (GetPrivetInfo_keeps_privet_url E u s0)
    end.
    reflexivity. }
  unfold response, request, info_request in Hj, Hheaders.
  rewrite Hurl in Hj, Hheaders.
  unfold request, info_request. rewrite Hurl. clear Hurl response request.
  unfold r, init in *.
  match goal with
  | |- context [GetPrivetInfo E ?s0] =>
      rewrite (GetPrivetInfo_not_json E s0 j Hj Hjt Hheaders) in *
  end.
  cbn [fst snd dev calls] in *. repeat split; try reflexivity; apply Hunreg.
Qed.

Lemma init_without_json_witness :
  let E := Bench.env Lab.html_server Bench.blank_page in
  let r := init E PNone PNone PNone in
  fst r = Ok tt /\
  calls (snd r) = [HTTP (info_request E (dev (snd r)))] /\
  headers (dev (snd r)) = PNone /\
  privet_info (dev (snd r)) = PDict [] /\
  unregistered (dev (snd r)).
Proof.
  intros E r.
  apply (init_without_json E PNone PNone PNone (PBool false)); reflexivity.
Defined.

(** ** More on the claim token poll *)

(** X4: an error other than [pending_user_action] ends the poll at
    once.  On any pass, a body that holds [error] but neither [token] nor
    [pending_user_action] makes the method return [False] after that one
    request, and the device object is as it was. *)
Theorem GetPrivetClaimToken_terminal_error E fuel counter s :
  counter < max_cycles ->
  let request := poll_request E (dev s) in
  let data := resp_data (HTTPReq E (calls s) request) in
  Py.str_contains "token" data = false ->
  Py.str_contains "error" data = true ->
  Py.str_contains "pending_user_action" data = false ->
  GetPrivetClaimToken_loop E (S fuel) counter s
  = Done (Ok false)
      {| dev := dev s; calls := (calls s ++ [HTTP request])%list |}.
Proof.
  intros Hc request data Htoken Herror Hpending.
  rewrite loop_pass by exact Hc. rewrite GetPrivetClaimToken_body_eq.
  fold request. fold data. now rewrite Htoken, Herror, Hpending.
Qed.

Lemma GetPrivetClaimToken_terminal_error_witness :
  let E := Bench.env (Bench.always Lab.invalid_request_body)
             Bench.blank_page in
  let s := Bench.fresh E in
  GetPrivetClaimToken E 1 s
  = Done (Ok false)
      {| dev := dev s;
         calls := (calls s ++ [HTTP (poll_request E (dev s))])%list |}.
Proof.
  intros E s.
  apply (GetPrivetClaimToken_terminal_error E 0 0 s);
    [unfold max_cycles; lia | reflexivity ..].
Defined.

(** Pending answers in a row, then a token. *)
Lemma loop_pending_then_token E s (n : nat) :
  forall counter fuel cs,
    counter + n < max_cycles ->
    let request := poll_request E (dev s) in
    (forall i, i < n ->
       let data :=
         resp_data (HTTPReq E (cs ++ repeat (HTTP request) i)%list request) in
       Py.str_contains "token" data = false /\
       Py.str_contains "error" data = true /\
       Py.str_contains "pending_user_action" data = true) ->
    let data :=
      resp_data (HTTPReq E (cs ++ repeat (HTTP request) n)%list request) in
    Py.str_contains "token" data = true ->
    GetPrivetClaimToken_loop E (S n + fuel) counter
      {| dev := dev s; calls := cs |}
    = Done (Ok true)
        {| dev := set_claim_url (Some (GetValue E data "claim_url"))
                    (set_automated_claim_url
                       (Some (GetValue E data "automated_claim_url"))
                       (set_claim_token (Some (GetValue E data "token"))
                          (dev s)));
           calls := (cs ++ repeat (HTTP request) (S n))%list |}.
Proof.
  induction n as [| n IH]; intros counter fuel cs Hc request Hpending data Htoken.
  - cbn [Nat.add]. rewrite loop_pass by lia.
    rewrite GetPrivetClaimToken_body_eq. cbn [dev calls].
    unfold data in Htoken. cbn [repeat] in Htoken. rewrite app_nil_r in Htoken.
    fold request. rewrite Htoken.
    unfold data. cbn [repeat]. now rewrite app_nil_r.
  - cbn [Nat.add]. rewrite loop_pass by lia.
    rewrite GetPrivetClaimToken_body_eq. cbn [dev calls].
    destruct (Hpending 0 (Nat.lt_0_succ n)) as (Ht & He & Hp).
    cbn [repeat] in Ht, He, Hp. rewrite app_nil_r in Ht, He, Hp.
    fold request. rewrite Ht, He, Hp.
    specialize (IH (counter + 1) fuel (cs ++ [HTTP request])%list).
    cbn [Nat.add] in IH. cbv zeta in IH. fold request in IH.
    unfold data in *. rewrite <- calls_snoc_repeat.
    rewrite <- calls_snoc_repeat in Htoken.
    rewrite <- (calls_snoc_repeat cs (HTTP request) (S n)).
    apply IH; [lia | | exact Htoken].
    intros i Hi. rewrite calls_snoc_repeat. apply Hpending. lia.
Qed.

(** X5: pending answers do not stand in the way of a token.  If the
    first [n] answers, [n] below the cap of five, are pending answers and
    the next one holds [token], the method returns [True] having sent
    exactly [n + 1] requests, with the claim attributes read from that
    last body. *)
Theorem GetPrivetClaimToken_pending_then_token E s n fuel :
  n < max_cycles ->
  let request := poll_request E (dev s) in
  (forall i, i < n ->
     let data :=
       resp_data
         (HTTPReq E (calls s ++ repeat (HTTP request) i)%list request) in
     Py.str_contains "token" data = false /\
     Py.str_contains "error" data = true /\
     Py.str_contains "pending_user_action" data = true) ->
  let data :=
    resp_data (HTTPReq E (calls s ++ repeat (HTTP request) n)%list request) in
  Py.str_contains "token" data = true ->
  GetPrivetClaimToken E (S n + fuel) s
  = Done (Ok true)
      {| dev := set_claim_url (Some (GetValue E data "claim_url"))
                  (set_automated_claim_url
                     (Some (GetValue E data "automated_claim_url"))
                     (set_claim_token (Some (GetValue E data "token"))
                        (dev s)));
         calls := (calls s ++ repeat (HTTP request) (S n))%list |}.
Proof.
  intros Hn request Hpending data Htoken. unfold GetPrivetClaimToken.
  rewrite <- (St_eta s) at 1.
  apply (loop_pending_then_token E s n 0 fuel (calls s)); assumption.
Qed.

Lemma GetPrivetClaimToken_pending_then_token_witness :
  let E := Bench.env
             (Bench.script [Bench.empty_object_body; Bench.pending_body;
                            Bench.pending_body; Bench.token_body])
             Bench.blank_page in
  let s := Bench.fresh E in
  GetPrivetClaimToken E 3 s
  = Done (Ok true)
      {| dev := set_claim_url (Some (PStr "https://cloud.example.com/c/abc"))
                  (set_automated_claim_url
                     (Some (PStr "https://cloud.example.com/claim/abc"))
                     (set_claim_token (Some (PStr "abc")) (dev s)));
         calls := (calls s ++ repeat (HTTP (poll_request E (dev s))) 3)%list |}.
Proof.
  intros E s.
  apply (GetPrivetClaimToken_pending_then_token E s 2 0).
  - unfold max_cycles. lia.
  - intros i Hi.
    destruct i as [| [| i]]; [repeat split; reflexivity .. | lia].
  - reflexivity.
Defined.


Lemma claim_token_created_on_success_witness :
  let E := Bench.env (Bench.always Lab.invalid_request_body)
             Bench.blank_page in
  let s := Bench.fresh E in
  claim_token
    (dev {| dev := dev s;
            calls := (calls s ++ [HTTP (poll_request E (dev s))])%list |})
  = None.
Proof.
  intros E s.
  apply (claim_token_created_on_success E 1 0 s (Ok false)).
  - reflexivity.
  - reflexivity.
  - discriminate.
Defined.

(** ** More on sending the claim *)

(** An empty claim token or an empty claim URL stops the method. *)
Lemma SendClaimToken_empty E auth_token s t a :
  claim_token (dev s) = Some t ->
  automated_claim_url (dev s) = Some a ->
  Py.truthy t && Py.truthy a = false ->
  SendClaimToken E auth_token s = (Ok false, s).
Proof.
  intros Ht Ha Hempty.
  destruct (Py.truthy t) eqn:Htt.
  - unfold SendClaimToken, bind, self_opt.
    rewrite Ht; cbv beta iota; rewrite Htt; cbn [negb]; cbv beta iota.
    rewrite Ha; cbv beta iota. simpl in Hempty. now rewrite Hempty.
  - now apply (SendClaimToken_empty_token E auth_token s t).
Qed.

(** X6: both guards of [SendClaimToken] hold their ground once the
    attributes exist.  If the claim token or the automated claim URL is
    empty, the method returns [False] and sends nothing. *)
Theorem SendClaimToken_guards E auth_token s t a :
  claim_token (dev s) = Some t ->
  automated_claim_url (dev s) = Some a ->
  Py.truthy t && Py.truthy a = false ->
  SendClaimToken E auth_token s = (Ok false, s).
Proof. exact (SendClaimToken_empty E auth_token s t a). Qed.

Lemma SendClaimToken_guards_witness :
  let E := Bench.env (Bench.always Bench.token_expired_body)
             Bench.blank_page in
  let s := Bench.state_of (GetPrivetClaimToken E 1 (Bench.fresh E)) in
  SendClaimToken E (PStr "ya29.owner") s = (Ok false, s).
Proof.
  intros E s.
  apply (SendClaimToken_guards E (PStr "ya29.owner") s PNone PNone);
    reflexivity.
Defined.

(** X7: a body that does not read as JSON is a plain failure.  With
    both attributes in place, [SendClaimToken] sends its one request, and
    if the ['json'] entry of the parsed answer is false it returns
    [False], whatever else the answer holds. *)
Theorem SendClaimToken_not_json E auth_token s t a j :
  claim_token (dev s) = Some t -> Py.truthy t = true ->
  automated_claim_url (dev s) = Some a -> Py.truthy a = true ->
  let request := claim_request E auth_token a in
  let parsed := Read E (resp_data (HTTPReq E (calls s) request)) in
  Py.dict_get parsed (PStr "json") = Some j -> Py.truthy j = false ->
  SendClaimToken E auth_token s
  = (Ok false, {| dev := dev s; calls := (calls s ++ [HTTP request])%list |}).
Proof.
  intros Ht Htt Ha Hat request parsed Hj Hjf.
  rewrite (SendClaimToken_sent E auth_token s t a Ht Htt Ha Hat).
  cbv zeta. fold request. fold parsed. now rewrite Hj, Hjf.
Qed.

Lemma SendClaimToken_not_json_witness :
  let E := Bench.env
             (Bench.script [Bench.empty_object_body; Bench.token_body;
                            "Service Unavailable"])
             Bench.blank_page in
  let auth_token := PStr "ya29.owner" in
  let s := Bench.state_of (GetPrivetClaimToken E 1 (Bench.fresh E)) in
  let request :=
    claim_request E auth_token (PStr "https://cloud.example.com/claim/abc") in
  SendClaimToken E auth_token s
  = (Ok false, {| dev := dev s; calls := (calls s ++ [HTTP request])%list |}).
Proof.
  intros E auth_token s request.
  apply (SendClaimToken_not_json E auth_token s (PStr "abc")
           (PStr "https://cloud.example.com/claim/abc") (PBool false));
    reflexivity.
Defined.

Lemma SendClaimToken_true_only_witness :
  let E := Bench.env
             (Bench.script [Bench.empty_object_body; Bench.token_body;
                            Lab.success_true_body])
             Bench.blank_page in
  let auth_token := PStr "ya29.owner" in
  let s := Bench.state_of (GetPrivetClaimToken E 1 (Bench.fresh E)) in
  exists a j v,
    automated_claim_url (dev s) = Some a /\
    let parsed :=
      Read E (resp_data (HTTPReq E (calls s) (claim_request E auth_token a))) in
    Py.dict_get parsed (PStr "json") = Some j /\ Py.truthy j = true /\
    Py.dict_get parsed (PStr "success") = Some v /\ Py.truthy v = true.
Proof.
  intros E auth_token s.
  apply (SendClaimToken_true_only E auth_token s). reflexivity.
Defined.

(** X9: the claim goes where the device said.  After a pass of the poll
    on a body that holds [token], [SendClaimToken] sends its request to
    the value [GetValue] finds under [automated_claim_url] in that body,
    provided that value and the token are not empty; if either is, which
    happens when [token] only occurs inside some other text, it returns
    [False] and sends nothing. *)
Theorem SendClaimToken_after_poll E fuel counter s auth_token :
  counter < max_cycles ->
  let poll := poll_request E (dev s) in
  let data := resp_data (HTTPReq E (calls s) poll) in
  Py.str_contains "token" data = true ->
  let t := GetValue E data "token" in
  let a := GetValue E data "automated_claim_url" in
  let s1 := Bench.state_of (GetPrivetClaimToken_loop E (S fuel) counter s) in
  let r := SendClaimToken E auth_token s1 in
  if Py.truthy t && Py.truthy a
  then calls (snd r)
       = (calls s ++ [HTTP poll; HTTP (claim_request E auth_token a)])%list
  else r = (Ok false, s1) /\ calls s1 = (calls s ++ [HTTP poll])%list.
Proof.
  intros Hc poll data Htoken t a s1 r.
  assert (Hs1 : s1 = {| dev := set_claim_url (Some (GetValue E data "claim_url"))
                             (set_automated_claim_url (Some a)
                                (set_claim_token (Some t) (dev s)));
                        calls := (calls s ++ [HTTP poll])%list |}).
  { unfold s1. rewrite loop_pass by exact Hc.
    rewrite GetPrivetClaimToken_body_eq. fold poll. fold data.
    now rewrite Htoken. }
  destruct (Py.truthy t && Py.truthy a) eqn:Hta.
  - apply andb_prop in Hta. destruct Hta as [Htt Hat].
    unfold r. rewrite (SendClaimToken_sent E auth_token s1 t a);
      try assumption; try (rewrite Hs1; reflexivity).
    cbn [snd calls]. rewrite Hs1. cbn [calls]. now rewrite <- app_assoc.
  - split; [| now rewrite Hs1].
    apply (SendClaimToken_empty E auth_token s1 t a);
      try assumption; rewrite Hs1; reflexivity.
Qed.

Lemma SendClaimToken_after_poll_witness :
  let E := Bench.env
             (Bench.script [Bench.empty_object_body; Bench.token_body;
                            Lab.success_true_body])
             Bench.blank_page in
  let s := Bench.fresh E in
  let auth_token := PStr "ya29.owner" in
  let s1 := Bench.state_of (GetPrivetClaimToken_loop E 1 0 s) in
  calls (snd (SendClaimToken E auth_token s1))
  = (calls s
     ++ [HTTP (poll_request E (dev s));
         HTTP (claim_request E auth_token
                 (PStr "https://cloud.example.com/claim/abc"))])%list.
Proof.
  intros E s auth_token s1.
  apply (SendClaimToken_after_poll E 0 0 s auth_token).
  - unfold max_cycles. lia.
  - reflexivity.
Defined.

(** ** Completing and undoing a registration *)

Lemma for_each_app {A} (xs ys : list A) (body : A -> M unit) s :
  for_each (xs ++ ys) body s
  = match for_each xs body s with
    | (Ok _, s1) => for_each ys body s1
    | (Raise e, s1) => (Raise e, s1)
    end.
Proof.
  revert s. induction xs as [| x xs IH]; intros s; cbn [for_each app].
  - reflexivity.
  - unfold bind. destruct (body x s) as [[[] | e] s1]; [apply IH |].
    reflexivity.
Qed.

(** The scan of [FinishPrivetRegister] changes nothing but [self.id]. *)
Lemma scan_device_id_shape (parsed : list (pyval * pyval)) (keys : list pyval) :
  (forall k, In k keys -> is_PStr k = true /\ Py.dict_get parsed k <> None) ->
  forall s,
  exists o,
    for_each keys (fun k =>
      found <- lift (Py.contains_str "device_id" k) ;;
      if found : bool then
        v <- lift (Py.getitem (PDict parsed) k) ;;
        assign (set_id (Some v))
      else ret tt) s
    = (Ok tt,
       {| dev := match o with
                 | Some v => set_id (Some v) (dev s)
                 | None => dev s
                 end;
          calls := calls s |}).
Proof.
  induction keys as [| k keys IH]; intros Hk s.
  - exists None. now destruct s.
  - destruct (Hk k (or_introl eq_refl)) as [Hstr Hget].
    destruct k as [| | | k | |]; try discriminate.
    cbn [for_each]. unfold bind at 1. unfold bind at 1. unfold lift at 1.
    cbn [Py.contains_str].
    destruct (Py.str_contains "device_id" k).
    + unfold bind at 1. unfold lift at 1. rewrite getitem_dict_str.
      destruct (Py.dict_get parsed (PStr k)) as [v |]; [| contradiction].
      unfold assign at 1.
      destruct (IH (fun k' H => Hk k' (or_intror H))
                   {| dev := set_id (Some v) (dev s); calls := calls s |})
        as [o Hrun].
      rewrite Hrun. cbn [dev calls].
      destruct o as [v' |]; [exists (Some v') | exists (Some v)]; reflexivity.
    + unfold ret at 1. apply IH. intros k' H. apply Hk. now right.
Qed.

(** Over keys that do not name a device id the scan changes nothing. *)
Lemma scan_device_id_none (parsed : list (pyval * pyval)) (keys : list pyval) :
  forallb (fun k => is_PStr k && negb (names_device_id k)) keys = true ->
  forall s,
    for_each keys (fun k =>
      found <- lift (Py.contains_str "device_id" k) ;;
      if found : bool then
        v <- lift (Py.getitem (PDict parsed) k) ;;
        assign (set_id (Some v))
      else ret tt) s
    = (Ok tt, s).
Proof.
  induction keys as [| k keys IH]; intros Hk s; [reflexivity |].
  cbn [forallb] in Hk. apply andb_prop in Hk. destruct Hk as [Hk Hrest].
  apply andb_prop in Hk. destruct Hk as [Hstr Hno].
  destruct k as [| | | k | |]; try discriminate.
  cbn [names_device_id] in Hno. apply negb_true_iff in Hno.
  cbn [for_each]. unfold bind at 1. unfold bind at 1. unfold lift at 1.
  cbn [Py.contains_str]. rewrite Hno. unfold ret at 1. now apply IH.
Qed.

(** The method up to its scan. *)
Lemma FinishPrivetRegister_json E s j :
  let request := complete_request E (dev s) in
  let response := HTTPReq E (calls s) request in
  let parsed := Read E (resp_data response) in
  Py.dict_get parsed (PStr "json") = Some j -> Py.truthy j = true ->
  FinishPrivetRegister E s
  = match
      for_each (map fst parsed) (fun k =>
        found <- lift (Py.contains_str "device_id" k) ;;
        if found : bool then
          v <- lift (Py.getitem (PDict parsed) k) ;;
          assign (set_id (Some v))
        else ret tt)
        {| dev := dev s; calls := (calls s ++ [HTTP request])%list |}
    with
    | (Ok _, s') => (Ok (LogData E response), s')
    | (Raise e, s') => (Raise e, s')
    end.
Proof.
  intros request response parsed Hj Hjt.
  unfold FinishPrivetRegister.
  unfold bind at 1. unfold self at 1.
  unfold bind at 1. unfold self at 1.
  unfold bind at 1. unfold http at 1.
  fold (complete_request E (dev s)). fold request. fold response. fold parsed.
  unfold bind at 1. unfold lift at 1. rewrite getitem_dict_str. rewrite Hj.
  unfold bind at 1. rewrite Hjt.
  unfold bind at 1. unfold lift at 1. cbn [Py.iter].
  reflexivity.
Qed.

(** X10: the device id is found by substring.  When the answer of the
    completion call reads as JSON with string keys, [self.id] becomes the
    value of the last key whose name holds [device_id]; nothing else of
    the device changes, and the result is that of [LogData]. *)
Theorem FinishPrivetRegister_adopts_id E s j before k after v :
  let request := complete_request E (dev s) in
  let response := HTTPReq E (calls s) request in
  let parsed := Read E (resp_data response) in
  Py.dict_get parsed (PStr "json") = Some j -> Py.truthy j = true ->
  forallb is_PStr (map fst parsed) = true ->
  map fst parsed = (before ++ k :: after)%list ->
  names_device_id k = true ->
  forallb (fun k' => negb (names_device_id k')) after = true ->
  Py.dict_get parsed k = Some v ->
  FinishPrivetRegister E s
  = (Ok (LogData E response),
     {| dev := set_id (Some v) (dev s);
        calls := (calls s ++ [HTTP request])%list |}).
Proof.
  intros request response parsed Hj Hjt Hstr Hkeys Hk Hafter Hv.
  rewrite (FinishPrivetRegister_json E s j Hj Hjt).
  fold request. fold response. fold parsed.
  assert (Hall : forall k', In k' (map fst parsed) ->
                   is_PStr k' = true /\ Py.dict_get parsed k' <> None).
  { intros k' Hin. rewrite forallb_forall in Hstr.
    split; [now apply Hstr | apply dict_get_In; [exact Hin | now apply Hstr]]. }
  rewrite Hkeys in Hall |- *. rewrite for_each_app.
  destruct (scan_device_id_shape parsed before) with
    (s := {| dev := dev s; calls := (calls s ++ [HTTP request])%list |})
    as [o Hbefore].
  { intros k' Hin. apply Hall. apply in_or_app. now left. }
  rewrite Hbefore. cbn [dev calls for_each].
  destruct (Hall k) as [Hkstr _]; [apply in_or_app; right; now left |].
  destruct k as [| | | a | |]; try discriminate.
  cbn [names_device_id] in Hk.
  unfold bind at 1. unfold bind at 1. unfold lift at 1.
  cbn [Py.contains_str]. rewrite Hk.
  unfold bind at 1. unfold lift at 1. rewrite getitem_dict_str, Hv.
  unfold assign at 1. cbn [dev calls].
  rewrite scan_device_id_none.
  - now destruct o.
  - apply forallb_forall. intros k' Hin.
    rewrite forallb_forall in Hafter. rewrite (Hafter k' Hin).
    destruct (Hall k') as [Hs _]; [| now rewrite Hs].
    apply in_or_app. right. now right.
Qed.

Lemma FinishPrivetRegister_adopts_id_witness :
  let E := Bench.env (Bench.always Lab.registered_body) Bench.blank_page in
  let s := Bench.fresh E in
  FinishPrivetRegister E s
  = (Ok true,
     {| dev := set_id (Some (PStr "dev-42")) (dev s);
        calls := (calls s ++ [HTTP (complete_request E (dev s))])%list |}).
Proof.
  intros E s.
  apply (FinishPrivetRegister_adopts_id E s (PBool true) []
           (PStr "device_id") [PStr "json"] (PStr "dev-42"));
    reflexivity.
Defined.

(** X11: without such a key the registration completes without an id.
    When no key of the parsed answer holds [device_id], the device object
    is left exactly as it was, so [self.id] stays missing if it was
    missing, and the method still returns the result of [LogData]. *)
Theorem FinishPrivetRegister_without_id E s j :
  let request := complete_request E (dev s) in
  let response := HTTPReq E (calls s) request in
  let parsed := Read E (resp_data response) in
  Py.dict_get parsed (PStr "json") = Some j ->
  forallb (fun k => is_PStr k && negb (names_device_id k)) (map fst parsed)
  = true ->
  FinishPrivetRegister E s
  = (Ok (LogData E response),
     {| dev := dev s; calls := (calls s ++ [HTTP request])%list |}).
Proof.
  intros request response parsed Hj Hkeys.
  destruct (Py.truthy j) eqn:Hjt.
  - rewrite (FinishPrivetRegister_json E s j Hj Hjt).
    fold request. fold response. fold parsed.
    now rewrite scan_device_id_none.
  - unfold FinishPrivetRegister.
    unfold bind at 1. unfold self at 1.
    unfold bind at 1. unfold self at 1.
    unfold bind at 1. unfold http at 1.
    fold (complete_request E (dev s)). fold request. fold response.
    fold parsed.
    unfold bind at 1. unfold lift at 1. rewrite getitem_dict_str. rewrite Hj.
    unfold bind at 1. rewrite Hjt. reflexivity.
Qed.

Lemma FinishPrivetRegister_without_id_witness :
  let E := Bench.env (Bench.always Bench.empty_object_body) Bench.blank_page in
  let s := Bench.fresh E in
  FinishPrivetRegister E s
  = (Ok true,
     {| dev := dev s;
        calls := (calls s ++ [HTTP (complete_request E (dev s))])%list |}).
Proof.
  intros E s.
  apply (FinishPrivetRegister_without_id E s (PBool true)); reflexivity.
Defined.

(** What [UnRegister] does with a device id in place. *)
Lemma UnRegister_sent E auth_token s i :
  id (dev s) = Some i -> Py.truthy i = true ->
  let request := delete_request E auth_token i in
  let valid := Py.truthy (Validate E (resp_data (HTTPReq E (calls s) request))) in
  UnRegister E auth_token s
  = (Ok valid,
     {| dev := if valid then set_id (Some PNone) (dev s) else dev s;
        calls := (calls s ++ [HTTP request])%list |}).
Proof.
  intros Hi Hit request valid.
  unfold UnRegister, bind, self_opt. rewrite Hi. cbv beta iota. rewrite Hit.
  unfold http. fold (delete_request E auth_token i). fold request.
  cbv beta iota zeta. fold valid. now destruct valid.
Qed.

(** X12: a device is deleted once.  After an [UnRegister] that the
    service validated, [self.id] is [None]; a second [UnRegister], with
    any token, returns [False] and sends nothing, so that exactly one
    delete request went out. *)
Theorem UnRegister_twice E auth_token auth_token' s i :
  id (dev s) = Some i -> Py.truthy i = true ->
  let request := delete_request E auth_token i in
  Py.truthy (Validate E (resp_data (HTTPReq E (calls s) request))) = true ->
  let r := UnRegister E auth_token s in
  fst r = Ok true /\
  id (dev (snd r)) = Some PNone /\
  calls (snd r) = (calls s ++ [HTTP request])%list /\
  UnRegister E auth_token' (snd r) = (Ok false, snd r).
Proof.
  intros Hi Hit request Hvalid r. unfold r.
  rewrite (UnRegister_sent E auth_token s i Hi Hit).
  cbv zeta. fold request. rewrite Hvalid. cbn [fst snd dev calls].
  repeat split.
Qed.

Lemma UnRegister_twice_witness :
  let E := Bench.env (Bench.always Lab.registered_body) Bench.blank_page in
  let s := snd (FinishPrivetRegister E (Bench.fresh E)) in
  let r := UnRegister E (PStr "ya29.owner") s in
  fst r = Ok true /\
  id (dev (snd r)) = Some PNone /\
  calls (snd r)
  = (calls s
     ++ [HTTP (delete_request E (PStr "ya29.owner") (PStr "dev-42"))])%list /\
  UnRegister E (PStr "ya29.other") (snd r) = (Ok false, snd r).
Proof.
  intros E s r.
  apply (UnRegister_twice E (PStr "ya29.owner") (PStr "ya29.other") s
           (PStr "dev-42")); reflexivity.
Defined.

(** X13: a delete the service does not validate leaves the device
    registered.  [UnRegister] then returns [False] and keeps [self.id],
    and calling it again sends the same delete request once more. *)
Theorem UnRegister_not_validated E auth_token s i :
  id (dev s) = Some i -> Py.truthy i = true ->
  let request := delete_request E auth_token i in
  Py.truthy (Validate E (resp_data (HTTPReq E (calls s) request))) = false ->
  let r := UnRegister E auth_token s in
  fst r = Ok false /\
  dev (snd r) = dev s /\
  calls (snd (UnRegister E auth_token (snd r)))
  = (calls s ++ [HTTP request; HTTP request])%list.
Proof.
  intros Hi Hit request Hvalid r. unfold r.
  rewrite (UnRegister_sent E auth_token s i Hi Hit).
  cbv zeta. fold request. rewrite Hvalid. cbn [fst snd dev calls].
  repeat split.
  rewrite (UnRegister_sent E auth_token
             {| dev := dev s; calls := (calls s ++ [HTTP request])%list |}
             i Hi Hit).
  cbn [snd calls]. fold request. now rewrite <- app_assoc.
Qed.

Lemma UnRegister_not_validated_witness :
  let E := Bench.env
             (Bench.script [Bench.empty_object_body; Lab.registered_body;
                            Lab.invalid_request_body;
                            Lab.invalid_request_body])
             Bench.blank_page in
  let s := snd (FinishPrivetRegister E (Bench.fresh E)) in
  let request := delete_request E (PStr "ya29.owner") (PStr "dev-42") in
  let r := UnRegister E (PStr "ya29.owner") s in
  fst r = Ok false /\
  dev (snd r) = dev s /\
  calls (snd (UnRegister E (PStr "ya29.owner") (snd r)))
  = (calls s ++ [HTTP request; HTTP request])%list.
Proof.
  intros E s request r.
  apply (UnRegister_not_validated E (PStr "ya29.owner") s (PStr "dev-42"));
    reflexivity.
Defined.

(** X14: the id a registration adopted is the id that is deleted.
    After a [FinishPrivetRegister] that found the non-empty id [v],
    [UnRegister] sends its delete request for [v], right after the
    completion request. *)
Theorem UnRegister_after_FinishPrivetRegister
    E s j before k after v auth_token :
  let request := complete_request E (dev s) in
  let parsed := Read E (resp_data (HTTPReq E (calls s) request)) in
  Py.dict_get parsed (PStr "json") = Some j -> Py.truthy j = true ->
  forallb is_PStr (map fst parsed) = true ->
  map fst parsed = (before ++ k :: after)%list ->
  names_device_id k = true ->
  forallb (fun k' => negb (names_device_id k')) after = true ->
  Py.dict_get parsed k = Some v ->
  Py.truthy v = true ->
  calls (snd (UnRegister E auth_token (snd (FinishPrivetRegister E s))))
  = (calls s ++ [HTTP request; HTTP (delete_request E auth_token v)])%list.
Proof.
  intros request parsed Hj Hjt Hstr Hkeys Hk Hafter Hv Hvt.
  rewrite (FinishPrivetRegister_json E s j Hj Hjt).
  fold request. fold parsed.
  assert (Hall : forall k', In k' (map fst parsed) ->
                   is_PStr k' = true /\ Py.dict_get parsed k' <> None).
  { intros k' Hin. rewrite forallb_forall in Hstr.
    split; [now apply Hstr | apply dict_get_In; [exact Hin | now apply Hstr]]. }
  rewrite Hkeys in Hall |- *. rewrite for_each_app.
  destruct (scan_device_id_shape parsed before) with
    (s := {| dev := dev s; calls := (calls s ++ [HTTP request])%list |})
    as [o Hbefore].
  { intros k' Hin. apply Hall. apply in_or_app. now left. }
  rewrite Hbefore. cbn [dev calls for_each].
  destruct (Hall k) as [Hkstr _]; [apply in_or_app; right; now left |].
  destruct k as [| | | a | |]; try discriminate.
  cbn [names_device_id] in Hk.
  unfold bind at 1. unfold bind at 1. unfold lift at 1.
  cbn [Py.contains_str]. rewrite Hk.
  unfold bind at 1. unfold lift at 1. rewrite getitem_dict_str, Hv.
  unfold assign at 1. cbn [dev calls].
  rewrite scan_device_id_none.
  - cbn [snd]. rewrite (UnRegister_sent E auth_token _ v);
      [| now destruct o | exact Hvt].
    cbn [snd calls]. now rewrite <- app_assoc.
  - apply forallb_forall. intros k' Hin.
    rewrite forallb_forall in Hafter. rewrite (Hafter k' Hin).
    destruct (Hall k') as [Hs _]; [| now rewrite Hs].
    apply in_or_app. right. now right.
Qed.

Lemma UnRegister_after_FinishPrivetRegister_witness :
  let E := Bench.env (Bench.always Lab.registered_body) Bench.blank_page in
  let s := Bench.fresh E in
  calls (snd (UnRegister E (PStr "ya29.owner")
                (snd (FinishPrivetRegister E s))))
  = (calls s
     ++ [HTTP (complete_request E (dev s));
         HTTP (delete_request E (PStr "ya29.owner") (PStr "dev-42"))])%list.
Proof.
  intros E s.
  apply (UnRegister_after_FinishPrivetRegister E s (PBool true) []
           (PStr "device_id") [PStr "json"] (PStr "dev-42")
           (PStr "ya29.owner")); reflexivity.
Defined.

(** X15: cancelling does not clear the claim.  [CancelRegistration]
    sends its one request and returns the status code, and the device
    object is as before; a [SendClaimToken] that follows still sends the
    claim to the URL the device holds. *)
Theorem SendClaimToken_after_CancelRegistration E auth_token s t a :
  claim_token (dev s) = Some t -> Py.truthy t = true ->
  automated_claim_url (dev s) = Some a -> Py.truthy a = true ->
  let cancelled := CancelRegistration E s in
  fst cancelled
  = Ok (resp_code (HTTPReq E (calls s) (cancel_request E (dev s)))) /\
  dev (snd cancelled) = dev s /\
  calls (snd (SendClaimToken E auth_token (snd cancelled)))
  = (calls s ++ [HTTP (cancel_request E (dev s));
                 HTTP (claim_request E auth_token a)])%list.
Proof.
  intros Ht Htt Ha Hat cancelled.
  assert (Hc : cancelled
               = (Ok (resp_code (HTTPReq E (calls s) (cancel_request E (dev s)))),
                  {| dev := dev s;
                     calls := (calls s
                               ++ [HTTP (cancel_request E (dev s))])%list |}))
    by reflexivity.
  rewrite Hc. cbn [fst snd dev]. repeat split.
  rewrite (SendClaimToken_sent E auth_token
             {| dev := dev s;
                calls := (calls s ++ [HTTP (cancel_request E (dev s))])%list |}
             t a Ht Htt Ha Hat).
  cbn [snd calls]. now rewrite <- app_assoc.
Qed.

Lemma SendClaimToken_after_CancelRegistration_witness :
  let E := Bench.env
             (Bench.script [Bench.empty_object_body; Bench.token_body;
                            Bench.empty_object_body; Lab.success_true_body])
             Bench.blank_page in
  let s := Bench.state_of (GetPrivetClaimToken E 1 (Bench.fresh E)) in
  let auth_token := PStr "ya29.owner" in
  let cancelled := CancelRegistration E s in
  fst cancelled = Ok (PInt 200) /\
  dev (snd cancelled) = dev s /\
  calls (snd (SendClaimToken E auth_token (snd cancelled)))
  = (calls s
     ++ [HTTP (cancel_request E (dev s));
         HTTP (claim_request E auth_token
                 (PStr "https://cloud.example.com/claim/abc"))])%list.
Proof.
  intros E s auth_token cancelled.
  apply (SendClaimToken_after_CancelRegistration E auth_token s (PStr "abc")
           (PStr "https://cloud.example.com/claim/abc")); reflexivity.
Defined.

(** ** More on the status refresh *)

Lemma refreshed_truthy E g s :
  (forall history n, Py.truthy (console E history g n) = true) ->
  Py.truthy (field g (dev (refreshed E g s))) = true.
Proof.
  intros H. unfold refreshed.
  destruct (Py.truthy (field g (dev s))) eqn:Hg; [exact Hg |].
  cbn [dev]. rewrite field_set_field.
  replace (Getter_eqb g g) with true by now destruct g.
  apply H.
Qed.

Lemma refreshed_keeps_truthy E g g' s :
  Py.truthy (field g' (dev s)) = true ->
  Py.truthy (field g' (dev (refreshed E g s))) = true.
Proof. intros H. now apply refreshed_keeps_populated. Qed.

Lemma for_each_cons {A} (x : A) (xs : list A) (body : A -> M unit) :
  for_each (x :: xs) body = bind (body x) (fun _ => for_each xs body).
Proof. reflexivity. Qed.

(** X16: a page on which everything can be read is read once.  If
    every reader of the management page answers with a value that counts
    as populated, [GetDeviceDetails] calls each of the five readers
    exactly once, in its first pass, and ends with all five fields
    populated; the three further passes call nothing. *)
Theorem GetDeviceDetails_ready_page E s :
  (forall history g n, Py.truthy (console E history g n) = true) ->
  let r := GetDeviceDetails E s in
  forall g,
    fetches g (calls (snd r)) = fetches g (calls s) + 1 /\
    Py.truthy (field g (dev (snd r))) = true.
Proof.
  intros Hready r g. unfold r. rewrite GetDeviceDetails_eq.
  rewrite for_each_cons. unfold bind.
  match goal with
  | |- context [GetDeviceDetails_pass E ?s0] =>
      destruct (GetDeviceDetails_pass_spec E s0) as [_ Hpass];
      assert (Hfull : Py.truthy
                        (field g (dev (snd (GetDeviceDetails_pass E s0))))
                      = true)
  end.
  { rewrite GetDeviceDetails_pass_eq. cbn [snd].
    destruct g;
      repeat first
        [ apply refreshed_truthy; intros history n; apply Hready
        | apply refreshed_keeps_truthy ]. }
  destruct (Hpass g) as [Hcount _]. clear Hpass.
  replace (Py.truthy (field g (dev _))) with false in Hcount
    by now destruct g.
  cbn [dev calls] in Hcount. cbv iota in Hcount.
  destruct (GetDeviceDetails_pass E _) as [[[] | e] s1] eqn:Hrun.
  - cbn [snd] in Hfull, Hcount. cbv beta.
    destruct (GetDeviceDetails_passes_spec E [0; 1; 2]%Z s1) as [_ Hrest].
    destruct (Hrest g) as (k & Hk & _ & Htrue & _).
    destruct (Htrue Hfull) as [-> Hsame].
    split; [lia | now rewrite Hsame].
  - rewrite GetDeviceDetails_pass_eq in Hrun. discriminate.
Qed.

Lemma GetDeviceDetails_ready_page_witness :
  let E := Bench.env (Bench.always Bench.empty_object_body) Lab.ready_page in
  let s := Bench.fresh E in
  let r := GetDeviceDetails E s in
  fetches GetPrinterState (calls (snd r))
  = fetches GetPrinterState (calls s) + 1 /\
  Py.truthy (field GetPrinterState (dev (snd r))) = true.
Proof.
  intros E s r.
  apply (GetDeviceDetails_ready_page E s).
  intros history g n. now destruct g.
Defined.

(** ** More on the CDD parser *)

Lemma dict_get_some_key d k :
  existsb (fun k0 => Py.key_eqb k0 k) (map fst d) = true ->
  Py.dict_get d k <> None.
Proof.
  induction d as [| [k0 v0] d IH]; simpl; [discriminate |].
  intros H. destruct (Py.key_eqb k0 k); [discriminate | now apply IH].
Qed.

Lemma cdd_store_eq k v d0 cs c :
  Py.hashable k = true ->
  cdd_store k v {| dev := set_cdd (PDict c) d0; calls := cs |}
  = (Ok tt, {| dev := set_cdd (PDict (Py.dict_set c k v)) d0; calls := cs |}).
Proof.
  intros Hk. unfold cdd_store, bind, self, lift, assign.
  cbn [dev calls cdd set_cdd Py.setitem]. now rewrite Hk.
Qed.

(** The first loop of [ParseCDD], key by key: [capabilities] resets
    [self.cdd['caps']], every other key is copied with its value. *)
Lemma copy_printer_fields_spec d rec rest (keys : list pyval) :
  Py.dict_get d (PStr "printers") = Some (PList (PDict rec :: rest)) ->
  (forall k, In k keys ->
     is_PStr k = true /\ Py.dict_get rec k <> None /\
     Py.key_eqb k (PStr "caps") = false) ->
  forall d0 cs c,
  exists c',
    for_each keys (fun k =>
      if Py.key_eqb k (PStr "capabilities")
      then cdd_store (PStr "caps") (PDict [])
      else
        p <- first_printer (PDict d) ;;
        v <- lift (Py.getitem p k) ;;
        cdd_store k v) {| dev := set_cdd (PDict c) d0; calls := cs |}
    = (Ok tt, {| dev := set_cdd (PDict c') d0; calls := cs |}) /\
    forall t,
      Py.dict_get c' (PStr t)
      = if String.eqb t "caps" then
          if existsb (fun k => Py.key_eqb k (PStr "capabilities")) keys
          then Some (PDict []) else Py.dict_get c (PStr t)
        else if String.eqb t "capabilities" then Py.dict_get c (PStr t)
        else if existsb (fun k => Py.key_eqb k (PStr t)) keys
             then Py.dict_get rec (PStr t) else Py.dict_get c (PStr t).
Proof.
  intros Hp. induction keys as [| k keys IH]; intros Hkeys d0 cs c.
  - exists c. split; [reflexivity |]. intros t. cbn [existsb].
    now destruct (String.eqb t "caps"), (String.eqb t "capabilities").
  - destruct (Hkeys k (or_introl eq_refl)) as (Hstr & Hget & Hnc).
    destruct k as [| | | a | |]; try discriminate.
    cbn [Py.key_eqb] in Hnc.
    cbn [for_each existsb Py.key_eqb]. unfold bind at 1.
    destruct (String.eqb_spec a "capabilities") as [-> | Hne]; cbv iota.
    + rewrite (cdd_store_eq (PStr "caps") (PDict []) d0 cs c eq_refl).
      destruct (IH (fun k' H => Hkeys k' (or_intror H)) d0 cs
                   (Py.dict_set c (PStr "caps") (PDict [])))
        as (c' & Hrun & Hc').
      exists c'. split; [exact Hrun |].
      intros t. rewrite Hc'. rewrite dict_get_set. cbn [Py.key_eqb orb].
      rewrite (String.eqb_sym "caps" t).
      destruct (String.eqb_spec t "caps") as [-> | Ht].
      * now destruct (existsb _ keys).
      * destruct (String.eqb_spec t "capabilities") as [-> | Ht'];
          [reflexivity |].
        replace (String.eqb "capabilities" t) with false; [reflexivity |].
        symmetry. apply String.eqb_neq. congruence.
    + unfold bind at 1. rewrite (first_printer_head d _ rest _ Hp).
      unfold bind at 1. unfold lift at 1. rewrite getitem_dict_str.
      destruct (Py.dict_get rec (PStr a)) as [v |] eqn:Hv; [| contradiction].
      rewrite (cdd_store_eq (PStr a) v d0 cs c eq_refl).
      destruct (IH (fun k' H => Hkeys k' (or_intror H)) d0 cs
                   (Py.dict_set c (PStr a) v)) as (c' & Hrun & Hc').
      exists c'. split; [exact Hrun |].
      intros t. rewrite Hc'. rewrite dict_get_set. cbn [Py.key_eqb orb].
      destruct (String.eqb_spec t "caps") as [-> | Ht].
      * rewrite Hnc. reflexivity.
      * destruct (String.eqb_spec t "capabilities") as [-> | Ht'].
        -- replace (String.eqb a "capabilities") with false; [reflexivity |].
           symmetry. now apply String.eqb_neq.
        -- destruct (String.eqb_spec a t) as [-> | Hat].
           ++ rewrite Hv. cbn [orb].
              now destruct (existsb (fun k => Py.key_eqb k (PStr t)) keys).
           ++ reflexivity.
Qed.

Lemma printer_caps_eq doc s : printer_caps doc s = (caps_path doc, s).
Proof.
  unfold printer_caps, first_printer, caps_path, bind, lift.
  destruct (Py.getitem doc (PStr "printers")) as [printers |]; [| reflexivity].
  destruct (Py.getitem printers (PInt 0)) as [p |]; [| reflexivity].
  destruct (Py.getitem p (PStr "capabilities")) as [c |]; [| reflexivity].
  reflexivity.
Qed.

Lemma caps_store_eq a v d0 cs c cp :
  Py.dict_get c (PStr "caps") = Some (PDict cp) ->
  caps_store (PStr a) v {| dev := set_cdd (PDict c) d0; calls := cs |}
  = (Ok tt,
     {| dev := set_cdd
                 (PDict (Py.dict_set c (PStr "caps")
                           (PDict (Py.dict_set cp (PStr a) v)))) d0;
        calls := cs |}).
Proof.
  intros Hc. unfold caps_store.
  unfold bind at 1. unfold self at 1. cbn [dev cdd set_cdd].
  unfold bind at 1. unfold lift at 1. rewrite getitem_dict_str, Hc.
  unfold bind at 1. unfold lift at 1. cbn [Py.setitem Py.hashable].
  now rewrite (cdd_store_eq (PStr "caps") _ d0 cs c eq_refl).
Qed.

(** The second loop of [ParseCDD]: every capability is stored under
    [self.cdd['caps']], and nothing else of [self.cdd] changes. *)
Lemma copy_capabilities_spec doc pr (keys : list pyval) :
  caps_path doc = Ok (PDict pr) ->
  (forall k, In k keys -> is_PStr k = true /\ Py.dict_get pr k <> None) ->
  forall d0 cs c cp,
    Py.dict_get c (PStr "caps") = Some (PDict cp) ->
    exists c' cp',
      for_each keys (fun k =>
        caps <- printer_caps doc ;;
        v <- lift (Py.getitem caps k) ;;
        caps_store k v) {| dev := set_cdd (PDict c) d0; calls := cs |}
      = (Ok tt, {| dev := set_cdd (PDict c') d0; calls := cs |}) /\
      Py.dict_get c' (PStr "caps") = Some (PDict cp') /\
      (forall t, t <> "caps" ->
                 Py.dict_get c' (PStr t) = Py.dict_get c (PStr t)) /\
      (forall t,
         Py.dict_get cp' (PStr t)
         = if existsb (fun k => Py.key_eqb k (PStr t)) keys
           then Py.dict_get pr (PStr t) else Py.dict_get cp (PStr t)).
Proof.
  intros Hpath. induction keys as [| k keys IH]; intros Hkeys d0 cs c cp Hc.
  - exists c, cp. split; [reflexivity |]. split; [exact Hc |].
    split; intros; reflexivity.
  - destruct (Hkeys k (or_introl eq_refl)) as (Hstr & Hget).
    destruct k as [| | | a | |]; try discriminate.
    destruct (Py.dict_get pr (PStr a)) as [v |] eqn:Hv; [| contradiction].
    destruct (IH (fun k' H => Hkeys k' (or_intror H)) d0 cs
                 (Py.dict_set c (PStr "caps")
                    (PDict (Py.dict_set cp (PStr a) v)))
                 (Py.dict_set cp (PStr a) v))
      as (c' & cp' & Hrun & Hcaps & Hother & Hcp').
    { rewrite dict_get_set. reflexivity. }
    exists c', cp'. split; [| split; [exact Hcaps | split]].
    + cbn [for_each]. unfold bind at 1. unfold bind at 1.
      rewrite printer_caps_eq, Hpath.
      unfold bind at 1. unfold lift at 1. rewrite getitem_dict_str, Hv.
      rewrite (caps_store_eq a v d0 cs c cp Hc). exact Hrun.
    + intros t Ht. rewrite (Hother t Ht). rewrite dict_get_set.
      cbn [Py.key_eqb].
      replace (String.eqb "caps" t) with false; [reflexivity |].
      symmetry. apply String.eqb_neq. congruence.
    + intros t. rewrite Hcp'. rewrite dict_get_set. cbn [existsb Py.key_eqb].
      destruct (String.eqb_spec a t) as [-> | Hat].
      * rewrite Hv. cbn [orb].
        now destruct (existsb (fun k => Py.key_eqb k (PStr t)) keys).
      * reflexivity.
Qed.

Lemma ParseCDD_flattens_at E d0 cs text d rec rest capsd pr c0 :
  info d0 = PStr text -> text <> "" ->
  json_loads E text = Some (PDict d) ->
  Py.dict_get d (PStr "printers") = Some (PList (PDict rec :: rest)) ->
  forallb is_PStr (map fst rec) = true ->
  Py.dict_get rec (PStr "capabilities") = Some (PDict capsd) ->
  Py.dict_get rec (PStr "caps") = None ->
  Py.dict_get capsd (PStr "printer") = Some (PDict pr) ->
  forallb is_PStr (map fst pr) = true ->
  exists c' cp,
    ParseCDD E {| dev := set_cdd (PDict c0) d0; calls := cs |}
    = (Ok true, {| dev := set_cdd (PDict c') d0; calls := cs |}) /\
    Py.dict_get c' (PStr "caps") = Some (PDict cp) /\
    (forall t, Py.dict_get cp (PStr t) = Py.dict_get pr (PStr t)) /\
    (forall t, t <> "caps" -> t <> "capabilities" ->
       Py.dict_get c' (PStr t)
       = match Py.dict_get rec (PStr t) with
         | Some v => Some v
         | None => Py.dict_get c0 (PStr t)
         end).
Proof.
  intros Hinfo Htext Hdoc Hp Hrec Hcaps Hnocaps Hprinter Hpr.
  assert (Hpath : caps_path (PDict d) = Ok (PDict pr)).
  { unfold caps_path. rewrite getitem_dict_str, Hp. cbn [Py.getitem Py.as_index].
    cbn. rewrite Hcaps. cbn. now rewrite Hprinter. }
  destruct (copy_printer_fields_spec d rec rest (map fst rec) Hp) with
    (d0 := d0) (cs := cs) (c := c0) as (c1 & Hrun1 & Hc1).
  { intros k Hin. rewrite forallb_forall in Hrec.
    pose proof (Hrec k Hin) as Hk. split; [exact Hk |].
    split; [apply dict_get_In; assumption |].
    destruct k as [| | | a | |]; try discriminate. cbn [Py.key_eqb].
    destruct (String.eqb_spec a "caps") as [-> | Hne]; [| reflexivity].
    exfalso. apply (dict_get_In rec (PStr "caps") Hin eq_refl). exact Hnocaps. }
  assert (Hhas : existsb (fun k => Py.key_eqb k (PStr "capabilities"))
                   (map fst rec) = true).
  { destruct (existsb _ (map fst rec)) eqn:Hex; [reflexivity |].
    apply dict_get_no_key in Hex. congruence. }
  assert (Hcaps1 : Py.dict_get c1 (PStr "caps") = Some (PDict [])).
  { rewrite Hc1. cbn [String.eqb Ascii.eqb Bool.eqb]. now rewrite Hhas. }
  destruct (copy_capabilities_spec (PDict d) pr (map fst pr) Hpath) with
    (d0 := d0) (cs := cs) (c := c1) (cp := @nil (pyval * pyval))
    as (c' & cp & Hrun2 & Hcaps' & Hother & Hcp).
  { intros k Hin. rewrite forallb_forall in Hpr.
    split; [now apply Hpr | apply dict_get_In; [exact Hin | now apply Hpr]]. }
  { exact Hcaps1. }
  exists c', cp. split; [| split; [exact Hcaps' | split]].
  - rewrite (ParseCDD_loaded E {| dev := set_cdd (PDict c0) d0; calls := cs |}
               text (PDict d) Hinfo Htext Hdoc).
    unfold bind at 1. unfold lift at 1. cbn [Py.contains_str]. rewrite Hp.
    unfold bind at 1. rewrite (first_printer_head d _ rest _ Hp).
    unfold bind at 1. unfold lift at 1. cbn [Py.iter].
    unfold bind at 1. rewrite Hrun1.
    unfold bind at 1. rewrite printer_caps_eq, Hpath.
    unfold bind at 1. unfold lift at 1. cbn [Py.iter].
    unfold bind at 1. rewrite Hrun2. reflexivity.
  - intros t. rewrite Hcp.
    destruct (existsb _ (map fst pr)) eqn:Hex; [reflexivity |].
    apply dict_get_no_key in Hex. now rewrite Hex.
  - intros t Ht Ht'. rewrite (Hother t Ht). rewrite Hc1.
    apply String.eqb_neq in Ht. apply String.eqb_neq in Ht'.
    rewrite Ht, Ht'.
    destruct (existsb (fun k => Py.key_eqb k (PStr t)) (map fst rec)) eqn:Hex.
    + apply dict_get_some_key in Hex.
      destruct (Py.dict_get rec (PStr t)); [reflexivity | contradiction].
    + apply dict_get_no_key in Hex. now rewrite Hex.
Qed.

(** X17: what a successful parse leaves in [self.cdd].  For a document
    whose first printer record has string keys, a [capabilities] entry
    with a [printer] dictionary under it, and no key called [caps],
    [ParseCDD] returns [True] and sends nothing.  Afterwards
    [self.cdd['caps']] answers every lookup as the [printer] dictionary
    does, and every other name gives the value the record has for it, or
    what [self.cdd] held before if the record has none. *)
Theorem ParseCDD_flattens E s text d rec rest capsd pr c0 :
  info (dev s) = PStr text -> text <> "" ->
  json_loads E text = Some (PDict d) ->
  Py.dict_get d (PStr "printers") = Some (PList (PDict rec :: rest)) ->
  forallb is_PStr (map fst rec) = true ->
  Py.dict_get rec (PStr "capabilities") = Some (PDict capsd) ->
  Py.dict_get rec (PStr "caps") = None ->
  Py.dict_get capsd (PStr "printer") = Some (PDict pr) ->
  forallb is_PStr (map fst pr) = true ->
  cdd (dev s) = PDict c0 ->
  exists c' cp,
    ParseCDD E s
    = (Ok true, {| dev := set_cdd (PDict c') (dev s); calls := calls s |}) /\
    Py.dict_get c' (PStr "caps") = Some (PDict cp) /\
    (forall t, Py.dict_get cp (PStr t) = Py.dict_get pr (PStr t)) /\
    (forall t, t <> "caps" -> t <> "capabilities" ->
       Py.dict_get c' (PStr t)
       = match Py.dict_get rec (PStr t) with
         | Some v => Some v
         | None => Py.dict_get c0 (PStr t)
         end).
Proof.
  intros Hinfo Htext Hdoc Hp Hrec Hcaps Hnocaps Hprinter Hpr Hc.
  destruct (ParseCDD_flattens_at E (dev s) (calls s) text d rec rest capsd pr
              c0 Hinfo Htext Hdoc Hp Hrec Hcaps Hnocaps Hprinter Hpr)
    as (c' & cp & Hrun & Hrest).
  exists c', cp. split; [| exact Hrest].
  rewrite <- Hc, Device_eta_cdd, St_eta in Hrun. exact Hrun.
Qed.

Lemma ParseCDD_flattens_witness :
  let E := Bench.env (Bench.always Bench.empty_object_body) Bench.blank_page in
  let s := Bench.with_info Bench.full_doc (Bench.fresh E) in
  exists c' cp,
    ParseCDD E s
    = (Ok true, {| dev := set_cdd (PDict c') (dev s); calls := calls s |}) /\
    Py.dict_get c' (PStr "caps") = Some (PDict cp) /\
    (forall t,
       Py.dict_get cp (PStr t)
       = Py.dict_get [(PStr "color", PStr "rgb")] (PStr t)) /\
    (forall t, t <> "caps" -> t <> "capabilities" ->
       Py.dict_get c' (PStr t)
       = match
           Py.dict_get
             [(PStr "name", PStr "X");
              (PStr "capabilities",
               PDict [(PStr "printer", PDict [(PStr "color", PStr "rgb")])])]
             (PStr t)
         with
         | Some v => Some v
         | None => Py.dict_get [] (PStr t)
         end).
Proof.
  intros E s.
  apply (ParseCDD_flattens E s Bench.full_doc
           [(PStr "printers",
             PList [PDict [(PStr "name", PStr "X");
                           (PStr "capabilities",
                            PDict [(PStr "printer",
                                    PDict [(PStr "color", PStr "rgb")])])]])]
           _ [] [(PStr "printer", PDict [(PStr "color", PStr "rgb")])]);
    try reflexivity.
  discriminate.
Defined.

(** X18: [True] means the whole path was there.  [ParseCDD] returns
    [True] only if [self.info] is a text that [json.loads] accepts and
    the document has a value under
    [['printers'][0]['capabilities']['printer']]. *)
Theorem ParseCDD_true_only E s :
  fst (ParseCDD E s) = Ok true ->
  exists text doc pr,
    info (dev s) = PStr text /\ json_loads E text = Some doc /\
    caps_path doc = Ok pr.
Proof.
  intros H. unfold ParseCDD in H.
  unfold bind at 1 in H. unfold self at 1 in H.
  destruct (Py.truthy (info (dev s))); [| discriminate].
  unfold bind at 1 in H. unfold loads in H.
  destruct (info (dev s)) as [| | | text | |] eqn:Hinfo; try discriminate.
  destruct (json_loads E text) as [doc |] eqn:Hdoc; [| discriminate].
  unfold ret at 1 in H.
  unfold bind at 1 in H. unfold lift at 1 in H.
  destruct (Py.contains_str "printers" doc) as [[|] |]; try discriminate.
  unfold bind at 1 in H.
  destruct (first_printer doc s) as [[p | e] s1]; [| discriminate].
  unfold bind at 1 in H. unfold lift at 1 in H.
  destruct (Py.iter p) as [keys |]; [| discriminate].
  unfold bind at 1 in H.
  destruct (for_each keys _ s1) as [[[] | e] s2]; [| discriminate].
  unfold bind at 1 in H. rewrite printer_caps_eq in H.
  destruct (caps_path doc) as [pr |] eqn:Hpath; [| discriminate].
  now exists text, doc, pr.
Qed.

Lemma ParseCDD_true_only_witness :
  let E := Bench.env (Bench.always Bench.empty_object_body) Bench.blank_page in
  let s := Bench.with_info Bench.full_doc (Bench.fresh E) in
  exists text doc pr,
    info (dev s) = PStr text /\ json_loads E text = Some doc /\
    caps_path doc = Ok pr.
Proof.
  intros E s. apply (ParseCDD_true_only E s). reflexivity.
Defined.

(** X19: a text that is not JSON is not caught.  When [json.loads]
    turns the device info down, [ParseCDD] returns neither [True] nor
    [False]: the [ValueError] escapes, and nothing was changed. *)
Theorem ParseCDD_not_json E s text :
  info (dev s) = PStr text -> text <> "" ->
  json_loads E text = None ->
  ParseCDD E s = (Raise ValueError, s).
Proof.
  intros Hinfo Htext Hdoc.
  unfold ParseCDD. unfold bind at 1. unfold self at 1. rewrite Hinfo.
  apply String.eqb_neq in Htext. cbn [Py.truthy]. rewrite Htext. cbn [negb].
  unfold bind at 1. unfold loads. now rewrite Hdoc.
Qed.

Lemma ParseCDD_not_json_witness :
  let E := Bench.env (Bench.always Bench.empty_object_body) Bench.blank_page in
  let s := Bench.with_info "<html>Sign in</html>" (Bench.fresh E) in
  ParseCDD E s = (Raise ValueError, s).
Proof.
  intros E s.
  apply (ParseCDD_not_json E s "<html>Sign in</html>");
    [reflexivity | discriminate | reflexivity].
Defined.

Lemma keeps_cdd_store (P : list (pyval * pyval) -> Prop) k v :
  (forall c, P c -> P (Py.dict_set c k v)) ->
  keeps (fun d => exists c, cdd d = PDict c /\ P c) (cdd_store k v).
Proof.
  intros HP s (c & Hc & Hk). unfold cdd_store, bind, self, lift, assign.
  rewrite Hc. cbn [Py.setitem].
  destruct (Py.hashable k); cbn [snd dev].
  - exists (Py.dict_set c k v). split; [reflexivity | now apply HP].
  - now exists c.
Qed.

Lemma keeps_caps_store (P : list (pyval * pyval) -> Prop) k v :
  (forall c x, P c -> P (Py.dict_set c (PStr "caps") x)) ->
  keeps (fun d => exists c, cdd d = PDict c /\ P c) (caps_store k v).
Proof.
  intros HP. unfold caps_store.
  repeat keeps_step; try assumption.
  apply keeps_cdd_store. intros c. apply HP.
Qed.

(** X20: [ParseCDD] only ever adds to [self.cdd].  An entry that is in
    the dictionary before the call is still in it afterwards, whatever
    the document and whether the call returns or raises; entries of an
    earlier document are not cleared. *)
Theorem ParseCDD_keeps_entries E s c k :
  cdd (dev s) = PDict c -> Py.dict_get c k <> None ->
  exists c',
    cdd (dev (snd (ParseCDD E s))) = PDict c' /\ Py.dict_get c' k <> None.
Proof.
  intros Hc Hk.
  assert (Hkeeps : keeps (fun d => exists c, cdd d = PDict c /\
                                              Py.dict_get c k <> None)
                     (ParseCDD E)).
  { unfold ParseCDD, loads, printer_caps, first_printer.
    repeat keeps_step; try assumption;
      first [ apply keeps_cdd_store | apply keeps_caps_store ];
      intros; now apply dict_get_set_present. }
  apply Hkeeps. now exists c.
Qed.

Lemma ParseCDD_keeps_entries_witness :
  let E := Bench.env (Bench.always Bench.empty_object_body) Bench.blank_page in
  let s := snd (ParseCDD E (Bench.with_info Bench.full_doc (Bench.fresh E))) in
  let s' := Bench.with_info Bench.no_capabilities_doc s in
  exists c',
    cdd (dev (snd (ParseCDD E s'))) = PDict c' /\
    Py.dict_get c' (PStr "caps") <> None.
Proof.
  intros E s s'.
  apply (ParseCDD_keeps_entries E s'
           [(PStr "name", PStr "X");
            (PStr "caps", PDict [(PStr "color", PStr "rgb")])]).
  - reflexivity.
  - discriminate.
Defined.

(** ** The browser-driven methods *)

(** X21: [False] from [GetDeviceCDD] is about the browser only.  When
    the method returns [False], one of the four browser steps failed; the
    device object is exactly as it was, so [self.info] was not set and
    [ParseCDD] was not run. *)
Theorem GetDeviceCDD_false_untouched E C device_id b :
  fst (GetDeviceCDD E C device_id b) = Ok false ->
  st (snd (GetDeviceCDD E C device_id b)) = st b.
Proof.
  unfold GetDeviceCDD.
  destruct (FindID C _ "printer_printerid") as [lookup |]; [| reflexivity].
  destruct (SendKeys C _ device_id lookup); cbn [negb]; [| reflexivity].
  destruct (ClickElement C _ _); cbn [negb]; [| reflexivity].
  destruct (FindXPath C _ "html") as [page |]; [| reflexivity].
  destruct (ParseCDD E _) as [[ok | e] s']; discriminate.
Qed.

Lemma GetDeviceCDD_false_untouched_witness :
  let E := Bench.env (Bench.always Bench.empty_object_body) Bench.blank_page in
  let b := {| st := Bench.fresh E; cd_calls := [] |} in
  st (snd (GetDeviceCDD E Lab.blind_browser (PStr "dev-42") b)) = st b.
Proof.
  intros E b.
  apply (GetDeviceCDD_false_untouched E Lab.blind_browser (PStr "dev-42") b).
  reflexivity.
Defined.

(** X22: the result of [ParseCDD] is dropped.  Once the browser has
    shown a page, [GetDeviceCDD] sets [self.info] to its text and returns
    [True] whenever [ParseCDD] returns at all, also when it returns
    [False]; only an exception of [ParseCDD] gets through, as it is. *)
Theorem GetDeviceCDD_drops_ParseCDD E C device_id b lookup page :
  let h1 := (cd_calls b ++ [CdGet (GCP_SIMULATE C)])%list in
  let h2 := (h1 ++ [CdFindID "printer_printerid"])%list in
  let h3 := (h2 ++ [CdSendKeys device_id lookup])%list in
  let h4 := (h3 ++ [CdFindID "printer_submit"])%list in
  let h5 := (h4 ++ [CdClickElement (FindID C h3 "printer_submit")])%list in
  FindID C h1 "printer_printerid" = Some lookup ->
  SendKeys C h2 device_id lookup = true ->
  ClickElement C h4 (FindID C h3 "printer_submit") = true ->
  FindXPath C h5 "html" = Some page ->
  let parsed :=
    ParseCDD E {| dev := set_info (PStr (text page)) (dev (st b));
                  calls := calls (st b) |} in
  GetDeviceCDD E C device_id b
  = (match fst parsed with
     | Ok _ => Ok true
     | Raise e => Raise e
     end,
     {| st := snd parsed; cd_calls := (h5 ++ [CdFindXPath "html"])%list |}).
Proof.
  intros h1 h2 h3 h4 h5 Hlookup Hkeys Hclick Hpage parsed.
  unfold GetDeviceCDD. fold h1. rewrite Hlookup. fold h2. rewrite Hkeys.
  cbn [negb]. fold h3. fold h4. rewrite Hclick. cbn [negb]. fold h5.
  rewrite Hpage. fold parsed. now destruct parsed as [[ok | e] s'].
Qed.

Lemma GetDeviceCDD_drops_ParseCDD_witness :
  let E := Bench.env (Bench.always Bench.empty_object_body) Bench.blank_page in
  let C := Lab.browser Bench.no_printers_doc in
  let b := {| st := Bench.fresh E; cd_calls := [] |} in
  let s1 := Bench.with_info Bench.no_printers_doc (Bench.fresh E) in
  ParseCDD E s1 = (Ok false, s1) /\
  fst (GetDeviceCDD E C (PStr "dev-42") b) = Ok true /\
  st (snd (GetDeviceCDD E C (PStr "dev-42") b)) = s1.
Proof.
  intros E C b s1. split; [reflexivity |].
  rewrite (GetDeviceCDD_drops_ParseCDD E C (PStr "dev-42") b
             {| ref := "printer_printerid"; text := "" |}
             {| ref := "html"; text := Bench.no_printers_doc |});
    try reflexivity.
  split; reflexivity.
Defined.

(** With a device id in place: the request goes out, then the method
    raises. *)
Lemma GetPrinterInfo_raises E Extract auth_token s i :
  info_is_text (dev s) ->
  id (dev s) = Some i -> Py.truthy i = true ->
  exists e,
    GetPrinterInfo E Extract auth_token s
    = (Raise e,
       {| dev := dev s;
          calls := (calls s
                    ++ [HTTP (printer_request E auth_token i)])%list |}).
Proof.
  intros Hinfo Hid Hi. unfold GetPrinterInfo.
  unfold bind at 1. unfold self_opt at 1. rewrite Hid, Hi.
  unfold bind at 1. unfold http at 1.
  fold (printer_request E auth_token i).
  unfold bind at 1. unfold self at 1. cbn [dev calls].
  destruct (Extract _ (info (dev s))) as [extracted out'].
  assert (Hhash : Py.hashable (info (dev s)) = true).
  { destruct Hinfo as [-> | [t ->]]; reflexivity. }
  rewrite Hhash. unfold bind at 1. unfold ret at 1.
  unfold bind at 1. unfold lift at 1.
  destruct extracted as [[] | e].
  - exists (AttributeError "iteritems").
    unfold bind at 1. unfold self at 1. cbn [dev].
    unfold bind at 1. unfold lift at 1.
    destruct Hinfo as [-> | [t ->]]; reflexivity.
  - now exists e.
Qed.

(** X23: [GetPrinterInfo] cannot succeed.  [self.info] is [None] after
    [__init__] and a text after [GetDeviceCDD], and neither has
    [iteritems]; so whatever [Extract] does, the method never returns
    [True].  With a device id in place it sends its request and then
    raises, leaving the device object as it was. *)
Theorem GetPrinterInfo_never_true E Extract auth_token s :
  info_is_text (dev s) ->
  let r := GetPrinterInfo E Extract auth_token s in
  fst r <> Ok true /\
  forall i, id (dev s) = Some i -> Py.truthy i = true ->
    (exists e, fst r = Raise e) /\
    snd r = {| dev := dev s;
               calls := (calls s
                         ++ [HTTP (printer_request E auth_token i)])%list |}.
Proof.
  intros Hinfo r. split.
  - destruct (id (dev s)) as [i |] eqn:Hid.
    + destruct (Py.truthy i) eqn:Hi.
      * destruct (GetPrinterInfo_raises E Extract auth_token s i Hinfo Hid Hi)
          as [e Hrun].
        unfold r. rewrite Hrun. discriminate.
      * unfold r, GetPrinterInfo, bind, self_opt. rewrite Hid, Hi.
        discriminate.
    + unfold r, GetPrinterInfo, bind, self_opt. rewrite Hid. discriminate.
  - intros i Hid Hi.
    destruct (GetPrinterInfo_raises E Extract auth_token s i Hinfo Hid Hi)
      as [e Hrun].
    unfold r. rewrite Hrun. split; [now exists e | reflexivity].
Qed.

Lemma GetPrinterInfo_never_true_witness :
  let E := Bench.env (Bench.always Lab.registered_body) Bench.blank_page in
  let s := snd (FinishPrivetRegister E (Bench.fresh E)) in
  let r := GetPrinterInfo E Lab.copy_items (PStr "ya29.owner") s in
  fst r <> Ok true /\
  forall i, id (dev s) = Some i -> Py.truthy i = true ->
    (exists e, fst r = Raise e) /\
    snd r = {| dev := dev s;
               calls := (calls s
                         ++ [HTTP (printer_request E (PStr "ya29.owner") i)])%list |}.
Proof.
  intros E s r.
  apply (GetPrinterInfo_never_true E Lab.copy_items (PStr "ya29.owner") s).
  left. reflexivity.
Defined.

Lemma loop_keeps_info E fuel : forall counter s,
  info (dev (Bench.state_of (GetPrivetClaimToken_loop E fuel counter s)))
  = info (dev s).
Proof.
  induction fuel as [| fuel IH]; intros counter s.
  - destruct (Nat.ltb_spec counter max_cycles) as [Hc | Hc].
    + now rewrite loop_out_of_fuel.
    + now rewrite loop_stop.
  - destruct (Nat.ltb_spec counter max_cycles) as [Hc | Hc].
    + rewrite loop_pass by exact Hc. rewrite GetPrivetClaimToken_body_eq.
      cbv zeta.
      destruct (Py.str_contains "token" _); [reflexivity |].
      destruct (Py.str_contains "error" _);
        [destruct (Py.str_contains "pending_user_action" _) |];
        try reflexivity; now rewrite IH.
    + now rewrite loop_stop.
Qed.

(** X24: [self.info] is [None] or a page text, always.  [__init__]
    leaves it [None], [GetDeviceCDD] puts the text of a page there, and
    no method, in whatever order they are called, makes it anything
    else. *)
Theorem info_is_always_text E Extract auth_token :
  (forall chromedriver model privet_port,
     info_is_text (dev (snd (init E chromedriver model privet_port)))) /\
  keeps info_is_text (GetPrivetInfo E) /\
  keeps info_is_text (GetDeviceDetails E) /\
  keeps info_is_text (ParseCDD E) /\
  keeps info_is_text (CancelRegistration E) /\
  keeps info_is_text (StartPrivetRegister E) /\
  keeps info_is_text (SendClaimToken E auth_token) /\
  keeps info_is_text (FinishPrivetRegister E) /\
  keeps info_is_text (UnRegister E auth_token) /\
  keeps info_is_text (GetPrinterInfo E Extract auth_token) /\
  (forall fuel counter s,
     info_is_text (dev s) ->
     info_is_text
       (dev (Bench.state_of (GetPrivetClaimToken_loop E fuel counter s)))) /\
  (forall C device_id b,
     info_is_text (dev (st b)) ->
     info_is_text (dev (st (snd (GetDeviceCDD E C device_id b))))).
Proof.
  assert (Hinfo : keeps info_is_text (GetPrivetInfo E))
    by (unfold GetPrivetInfo; repeat keeps_step; assumption).
  assert (Hparse : keeps info_is_text (ParseCDD E)) by keeps_method.
  split; [| split; [exact Hinfo |]].
  { intros chromedriver model privet_port. unfold init. apply Hinfo.
    now left. }
  do 2 (split; [keeps_method |]). clear Hinfo.
  do 5 (split; [keeps_method |]).
  split; [| split].
  - intros s Hs.
    destruct (id (dev s)) as [i |] eqn:Hid.
    + destruct (Py.truthy i) eqn:Hi.
      * destruct (GetPrinterInfo_raises E Extract auth_token s i Hs Hid Hi)
          as [e Hrun].
        now rewrite Hrun.
      * unfold GetPrinterInfo, bind, self_opt. now rewrite Hid, Hi.
    + unfold GetPrinterInfo, bind, self_opt. now rewrite Hid.
  - intros fuel counter s Hs. unfold info_is_text.
    now rewrite loop_keeps_info.
  - intros C device_id b Hb. unfold GetDeviceCDD.
    destruct (FindID C _ "printer_printerid") as [lookup |]; [| exact Hb].
    destruct (SendKeys C _ device_id lookup); cbn [negb]; [| exact Hb].
    destruct (ClickElement C _ _); cbn [negb]; [| exact Hb].
    destruct (FindXPath C _ "html") as [page |]; [| exact Hb].
    match goal with
    | |- context [ParseCDD E ?s1] =>
        assert (H1 : info_is_text (dev (snd (ParseCDD E s1))))
          by (apply Hparse; right; now exists (text page));
        destruct (ParseCDD E s1) as [[ok | e] s']; exact H1
    end.
Qed.

Lemma info_is_always_text_witness :
  let E := Bench.env (Bench.always Bench.empty_object_body) Bench.blank_page in
  let b := {| st := Bench.fresh E; cd_calls := [] |} in
  info_is_text
    (dev (st (snd (GetDeviceCDD E (Lab.browser Bench.full_doc)
                     (PStr "dev-42") b)))).
Proof.
  intros E b.
  destruct (info_is_always_text E Lab.copy_items PNone)
    as (Hinit & _ & _ & _ & _ & _ & _ & _ & _ & _ & _ & Hbrowse).
  apply Hbrowse. apply (Hinit PNone PNone PNone).
Defined.

Lemma claim_token_not_created_witness :
  let E := Bench.env (Bench.always Lab.registered_body) Bench.blank_page in
  claim_token (dev (snd (FinishPrivetRegister E (Bench.fresh E)))) = None.
Proof.
  intros E.
  destruct (claim_token_not_created E PNone)
    as (_ & _ & _ & _ & _ & _ & Hfinish & _).
  apply Hfinish. reflexivity.
Defined.

Lemma ParseCDD_no_capabilities_witness :
  let E := Bench.env (Bench.always Bench.empty_object_body) Bench.blank_page in
  let s := Bench.with_info Bench.no_capabilities_doc (Bench.fresh E) in
  fst (ParseCDD E s) = Raise (KeyError (PStr "capabilities")).
Proof.
  intros E s.
  apply (ParseCDD_no_capabilities E s Bench.no_capabilities_doc
           [(PStr "printers", PList [PDict [(PStr "name", PStr "X")]])]
           [(PStr "name", PStr "X")] [] []);
    try reflexivity.
  discriminate.
Defined.
